(** * TransactionAnalyzer (index.js): a shallow embedding and its properties

    The class [TransactionAnalyzer] of [src/index.js] holds an array of
    transaction objects read from a JSON file and answers aggregate and filter
    queries over it.  This file embeds the methods as functions over

    - JavaScript Numbers as IEEE 754 binary64 values ([spec_float] with
      precision 53 and maximal exponent 1024), with the language's arithmetic
      and comparison operators;
    - JavaScript primitive values ([JsValue]) for the fields of a record and
      for the arguments of a call;
    - the built-ins the methods call ([parseFloat], [new Date(v)], the
      conversion of a String to a Number) as an interface [Host], so that every
      theorem holds for every engine and time zone;
    - the plain object used as a counter table, with the enumeration order of
      [for ... in] (integer keys ascending, then the other keys). *)

From Stdlib Require Import ZArith Lia List String Ascii Bool Floats.SpecFloat.
From stdpp Require Import base list gmap sorting strings.

Open Scope string_scope.
Open Scope list_scope.

(** ** Numbers *)

Definition number : Type := spec_float.
Definition prec : Z := 53.
Definition emax : Z := 1024.

Definition NaN : number := S754_nan.

(** The Number nearest to an integer (exact up to 2^53 in magnitude). *)
Definition number_of_Z (z : Z) : number := binary_normalize prec emax z 0 false.
Definition number_of_nat (n : nat) : number := number_of_Z (Z.of_nat n).

Definition js_add (a b : number) : number := SFadd prec emax a b.
Definition js_sub (a b : number) : number := SFsub prec emax a b.
Definition js_div (a b : number) : number := SFdiv prec emax a b.

(** [a < b], [a > b], [a <= b], [a >= b] on Numbers: the relational
    comparison is undefined as soon as one side is NaN, and the four operators
    then all answer false. *)
Definition js_lt (a b : number) : bool :=
  match SFcompare a b with Some Lt => true | _ => false end.
Definition js_gt (a b : number) : bool :=
  match SFcompare b a with Some Lt => true | _ => false end.
Definition js_le (a b : number) : bool :=
  match SFcompare b a with Some Lt | None => false | _ => true end.
Definition js_ge (a b : number) : bool :=
  match SFcompare a b with Some Lt | None => false | _ => true end.

(** [Number::equal]: NaN differs from everything, the two zeros are equal. *)
Definition js_number_equal (a b : number) : bool := SFeqb a b.

Definition is_NaN (a : number) : bool :=
  match a with S754_nan => true | _ => false end.

(** Interval membership [lo <= a <= hi], as a caller would read a range. *)
Definition in_range (lo hi : Z) (a : number) : bool :=
  js_le (number_of_Z lo) a && js_le a (number_of_Z hi).

(** ** Primitive values *)

Inductive JsValue : Type :=
| JsUndefined
| JsNull
| JsBoolean (b : bool)
| JsNumber (n : number)
| JsString (s : string).

Definition ToBoolean (v : JsValue) : bool :=
  match v with
  | JsUndefined | JsNull => false
  | JsBoolean b => b
  | JsNumber (S754_zero _) | JsNumber S754_nan => false
  | JsNumber _ => true
  | JsString s => negb (String.eqb s "")
  end.

(** [x === y]. *)
Definition IsStrictlyEqual (x y : JsValue) : bool :=
  match x, y with
  | JsUndefined, JsUndefined => true
  | JsNull, JsNull => true
  | JsBoolean a, JsBoolean b => Bool.eqb a b
  | JsNumber a, JsNumber b => js_number_equal a b
  | JsString a, JsString b => String.eqb a b
  | _, _ => false
  end.

(** [SameValueZero], the equality of [Set]: as [===] but NaN equals NaN. *)
Definition SameValueZero (x y : JsValue) : bool :=
  match x, y with
  | JsNumber S754_nan, JsNumber S754_nan => true
  | _, _ => IsStrictlyEqual x y
  end.

(** ** Dates *)

(** A Date object is either invalid (its time value is NaN, and so is every
    field read from it) or holds an integral time value in milliseconds with
    the calendar fields its local-time accessors return. *)
Record DateFields : Type := {
  time_value : Z;
  full_year : Z;
  month_index : nat;      (* 0 .. 11 *)
  day_of_month : nat      (* 1 .. 31 *)
}.

Definition JsDate : Type := option DateFields.

Definition valueOf (d : JsDate) : number :=
  match d with Some f => number_of_Z (time_value f) | None => NaN end.
Definition getFullYear (d : JsDate) : number :=
  match d with Some f => number_of_Z (full_year f) | None => NaN end.
Definition getMonth (d : JsDate) : number :=
  match d with Some f => number_of_nat (month_index f) | None => NaN end.
Definition getDate (d : JsDate) : number :=
  match d with Some f => number_of_nat (day_of_month f) | None => NaN end.

(** ** The built-ins of the host *)

Class Host : Type := {
  (** [parseFloat(v)] *)
  parseFloat : JsValue -> number;
  (** [ToNumber] on a String *)
  StringToNumber : string -> number;
  (** [new Date(v)], read in the host's time zone *)
  newDate : JsValue -> JsDate
}.

Definition ToNumber `{Host} (v : JsValue) : number :=
  match v with
  | JsUndefined => NaN
  | JsNull => number_of_Z 0
  | JsBoolean b => if b then number_of_Z 1 else number_of_Z 0
  | JsNumber n => n
  | JsString s => StringToNumber s
  end.

(** ** Property keys and the counter object *)

(** The keys the counter objects of [findMostTransactionsMonth] receive are
    [String(date.getMonth())]: an integer index, or the name NaN for an invalid
    date. *)
Inductive PropertyKey : Type :=
| KIndex (n : nat)
| KNaN.

#[global] Instance PropertyKey_eq_dec : EqDecision PropertyKey.
Proof. solve_decision. Defined.

Definition ToPropertyKey_getMonth (d : JsDate) : PropertyKey :=
  match d with Some f => KIndex (month_index f) | None => KNaN end.

(** A plain object whose values are counts.  Integer-indexed properties are
    kept apart from the named one because [for ... in] visits the former
    first. *)
Record CountObject : Type := {
  indexed : gmap nat nat;
  named_NaN : option nat
}.

Definition empty_object : CountObject := {| indexed := ∅; named_NaN := None |}.

(** [obj[k]]: [None] stands for undefined. *)
Definition obj_get (obj : CountObject) (k : PropertyKey) : option nat :=
  match k with
  | KIndex n => indexed obj !! n
  | KNaN => named_NaN obj
  end.

(** [obj[k] = v]. *)
Definition obj_set (obj : CountObject) (k : PropertyKey) (v : nat) : CountObject :=
  match k with
  | KIndex n => {| indexed := <[n := v]> (indexed obj); named_NaN := named_NaN obj |}
  | KNaN => {| indexed := indexed obj; named_NaN := Some v |}
  end.

(** The order in which [for (const k in obj)] visits the own keys: integer
    indices in ascending numeric order, then the names. *)
Definition OwnPropertyKeys (obj : CountObject) : list PropertyKey :=
  map KIndex (merge_sort le (elements (dom (indexed obj))))
  ++ match named_NaN obj with Some _ => [KNaN] | None => [] end.

(** [parseInt(k)] for [k] a key of a counter object or [null] ([None]):
    the String of [null] and the name NaN hold no digit. *)
Definition parseInt (k : option PropertyKey) : number :=
  match k with
  | Some (KIndex n) => number_of_nat n
  | Some KNaN => NaN
  | None => NaN
  end.

(** ** Sets *)

(** A [Set] keeps its elements in insertion order; [add] appends a value
    unless an element equal to it under [SameValueZero] is present, and stores
    the zero without its sign. *)
Definition JsSet : Type := list JsValue.

Definition Set_has (s : JsSet) (v : JsValue) : bool := existsb (SameValueZero v) s.

Definition Set_add (s : JsSet) (v : JsValue) : JsSet :=
  let v := match v with JsNumber (S754_zero true) => JsNumber (S754_zero false) | _ => v end in
  if Set_has s v then s else s ++ [v].

(** [Array.from(set)] *)
Definition Array_from (s : JsSet) : list JsValue := s.

(** ** Transactions and the analyzer *)

(** One object of [transactions.json].  A field the object lacks reads as
    [JsUndefined]. *)
Record Transaction : Type := {
  transaction_id : JsValue;
  transaction_date : JsValue;
  transaction_amount : JsValue;
  transaction_type : JsValue;
  merchant_name : JsValue;
  transaction_description : JsValue
}.

(** [this.transactions] is the only field of the class. *)
Record TransactionAnalyzer : Type := {
  transactions : list Transaction
}.

(** What [console.error] has printed. *)
Definition Console : Type := list string.

Definition date_error : string := "Неправильно введена дата.".

Section Methods.
Context `{Host}.

(** [constructor(transactions)] *)
Definition constructor (ts : list Transaction) : TransactionAnalyzer :=
  {| transactions := ts |}.

(** [addTransaction(newTransaction)]: [push] on the array; the analyzer after
    the call is returned. *)
Definition addTransaction (this : TransactionAnalyzer) (newTransaction : Transaction)
  : TransactionAnalyzer :=
  {| transactions := transactions this ++ [newTransaction] |}.

Definition getAllTransactions (this : TransactionAnalyzer) : list Transaction :=
  transactions this.

Definition getUniqueTransactionType (this : TransactionAnalyzer) : list JsValue :=
  let uniqueTypes :=
    fold_left (fun (uniqueTypes : JsSet) transaction =>
                 Set_add uniqueTypes (transaction_type transaction))
              (transactions this) [] in
  Array_from uniqueTypes.

(** [calculateTotalAmount()].  The loop runs over [analyzer["transactions"]],
    the analyzer bound at module level, and never reads [this]; [analyzer] is
    therefore a parameter next to [this]. *)
Definition calculateTotalAmount (analyzer this : TransactionAnalyzer) : number :=
  fold_left (fun totalForAllTime transaction =>
               js_add totalForAllTime (parseFloat (transaction_amount transaction)))
            (transactions analyzer) (number_of_Z 0).

(** The validation at the head of [calculateTotalAmountByDate]. *)
Definition date_rejected (month day : JsValue) : bool :=
  js_lt (ToNumber month) (number_of_Z 1) || js_gt (ToNumber month) (number_of_Z 12)
  || js_lt (ToNumber day) (number_of_Z 1) || js_gt (ToNumber day) (number_of_Z 31).

(** The closure [isSameDate]; its second argument, the Date built from the
    three components, is never read and is left out. *)
Definition isSameDate (year month day : JsValue) (transactionDate : JsDate) : bool :=
  (negb (ToBoolean year) || IsStrictlyEqual (JsNumber (getFullYear transactionDate)) year)
  && (negb (ToBoolean month)
      || js_number_equal (getMonth transactionDate) (js_sub (ToNumber month) (number_of_Z 1)))
  && (negb (ToBoolean day) || IsStrictlyEqual (JsNumber (getDate transactionDate)) day).

(** [calculateTotalAmountByDate(year, month, day)]: the returned Number and
    what was printed on the error console. *)
Definition calculateTotalAmountByDate (this : TransactionAnalyzer) (year month day : JsValue)
  : number * Console :=
  if date_rejected month day then (number_of_Z 0, [date_error])
  else
    (fold_left (fun totalAmount transaction =>
                  let transactionDate := newDate (transaction_date transaction) in
                  if isSameDate year month day transactionDate
                  then js_add totalAmount (parseFloat (transaction_amount transaction))
                  else totalAmount)
               (transactions this) (number_of_Z 0),
     []).

Definition getTransactionsInDateRange (this : TransactionAnalyzer) (startDate endDate : JsValue)
  : list Transaction :=
  let start := newDate startDate in
  let end_ := newDate endDate in
  List.filter (fun transaction =>
                 let transactionDate := newDate (transaction_date transaction) in
                 js_ge (valueOf transactionDate) (valueOf start)
                 && js_le (valueOf transactionDate) (valueOf end_))
              (transactions this).

Definition calculateAverageTransactionAmount (this : TransactionAnalyzer) : number :=
  match length (transactions this) with
  | O => number_of_Z 0
  | _ =>
    let totalAmount :=
      fold_left (fun accumulator transaction =>
                   js_add accumulator (parseFloat (transaction_amount transaction)))
                (transactions this) (number_of_Z 0) in
    js_div totalAmount (number_of_nat (length (transactions this)))
  end.

Definition getTransactionsByAmountRange (this : TransactionAnalyzer) (minAmount maxAmount : JsValue)
  : list Transaction :=
  List.filter (fun transaction =>
                 let amount := parseFloat (transaction_amount transaction) in
                 js_ge amount (ToNumber minAmount) && js_le amount (ToNumber maxAmount))
              (transactions this).

Definition calculateTotalDebitAmount (this : TransactionAnalyzer) : number :=
  fold_left (fun total transaction =>
               if IsStrictlyEqual (transaction_type transaction) (JsString "debit")
               then js_add total (parseFloat (transaction_amount transaction))
               else total)
            (transactions this) (number_of_Z 0).

(** One turn of the counting loop: [if (!obj[month]) obj[month] = 0;
    obj[month]++].  A count is an integer below the length of the array, so it
    is kept as a [nat]. *)
Definition count_month (obj : CountObject) (month : PropertyKey) : CountObject :=
  let obj :=
    match obj_get obj month with
    | None | Some O => obj_set obj month 0
    | Some _ => obj
    end in
  match obj_get obj month with
  | Some c => obj_set obj month (S c)
  | None => obj   (* not reached: the key has just been given a value *)
  end.

(** The selection loop over the keys of a counter object: the state is
    [(mostTransactionsMonth, maxTransactionCount)], [None] being [null]. *)
Definition select_month (obj : CountObject) : option PropertyKey * nat :=
  fold_left (fun '(mostTransactionsMonth, maxTransactionCount) month =>
               match obj_get obj month with
               | Some c =>
                 if (maxTransactionCount <? c)%nat then (Some month, c)
                 else (mostTransactionsMonth, maxTransactionCount)
               | None => (mostTransactionsMonth, maxTransactionCount)
               end)
            (OwnPropertyKeys obj) (None, 0).

Definition transactionCountByMonth (this : TransactionAnalyzer) : CountObject :=
  fold_left (fun obj transaction =>
               let month := ToPropertyKey_getMonth (newDate (transaction_date transaction)) in
               count_month obj month)
            (transactions this) empty_object.

Definition findMostTransactionsMonth (this : TransactionAnalyzer) : number :=
  let mostTransactionsMonth := fst (select_month (transactionCountByMonth this)) in
  js_add (parseInt mostTransactionsMonth) (number_of_Z 1).

Definition debitTransactionCountByMonth (this : TransactionAnalyzer) : CountObject :=
  fold_left (fun obj transaction =>
               if IsStrictlyEqual (transaction_type transaction) (JsString "debit")
               then
                 let month := ToPropertyKey_getMonth (newDate (transaction_date transaction)) in
                 count_month obj month
               else obj)
            (transactions this) empty_object.

Definition findMostDebitTransactionMonth (this : TransactionAnalyzer) : number :=
  let mostDebitTransactionMonth := fst (select_month (debitTransactionCountByMonth this)) in
  js_add (parseInt mostDebitTransactionMonth) (number_of_Z 1).

End Methods.

(** ** A reference host

    The examples below run the methods on a concrete host: an engine in the
    time zone UTC.  It reads the inputs the examples use as ECMAScript does:
    plain decimal literals (optional sign, digits, optional fraction, at most
    15 significant digits) for [parseFloat] and [ToNumber], Numbers
    themselves, and date-only ISO strings [yyyy-mm-dd] for [new Date].  Every
    other date is taken as invalid, and decimal exponents and the literal
    Infinity are not read. *)

Definition digit_value (c : ascii) : option Z :=
  let n := nat_of_ascii c in
  if ((48 <=? n) && (n <=? 57))%nat then Some (Z.of_nat (n - 48)) else None.

Fixpoint read_digits (s : string) (acc : Z) (count : nat) : Z * nat * string :=
  match s with
  | String c rest =>
    match digit_value c with
    | Some d => read_digits rest (10 * acc + d)%Z (S count)
    | None => (acc, count, s)
    end
  | EmptyString => (acc, count, s)
  end.

Definition is_white_space (c : ascii) : bool :=
  let n := nat_of_ascii c in
  ((n =? 32) || (n =? 9) || (n =? 10) || (n =? 13))%nat.

Fixpoint skip_white_space (s : string) : string :=
  match s with
  | String c rest => if is_white_space c then skip_white_space rest else s
  | EmptyString => s
  end.

(** The longest decimal literal at the head of [s], and what follows it. *)
Definition read_decimal (s : string) : option (number * string) :=
  let '(negative, s) :=
    match s with
    | String "-" rest => (true, rest)
    | String "+" rest => (false, rest)
    | _ => (false, s)
    end in
  let '(int_part, n_int, rest) := read_digits s 0%Z 0 in
  let '(mantissa, n_frac, rest) :=
    match rest with
    | String "." after =>
      let '(m, n, rest') := read_digits after int_part 0 in
      if ((n_int + n =? 0))%nat then (int_part, 0, rest) else (m, n, rest')
    | _ => (int_part, 0, rest)
    end in
  if ((n_int + n_frac =? 0))%nat then None
  else
    let magnitude :=
      match n_frac with
      | O => number_of_Z mantissa
      | _ => js_div (number_of_Z mantissa) (number_of_Z (10 ^ Z.of_nat n_frac))
      end in
    Some (if negative then SFopp magnitude else magnitude, rest).

Definition parseFloat_ref (v : JsValue) : number :=
  match v with
  | JsNumber (S754_zero _) => number_of_Z 0
  | JsNumber n => n
  | JsString s =>
    match read_decimal (skip_white_space s) with
    | Some (n, _) => n
    | None => NaN
    end
  | JsUndefined | JsNull | JsBoolean _ => NaN
  end.

Definition StringToNumber_ref (s : string) : number :=
  match skip_white_space s with
  | EmptyString => number_of_Z 0
  | s' =>
    match read_decimal s' with
    | Some (n, rest) =>
      match skip_white_space rest with EmptyString => n | _ => NaN end
    | None => NaN
    end
  end.

Definition is_leap_year (y : Z) : bool :=
  (((y mod 4 =? 0) && negb (y mod 100 =? 0)) || (y mod 400 =? 0))%Z.

Definition days_in_month (y m : Z) : Z :=
  (if m =? 2 then (if is_leap_year y then 29 else 28)
   else if (m =? 4) || (m =? 6) || (m =? 9) || (m =? 11) then 30 else 31)%Z.

(** Days from 1970-01-01 to the given day of the proleptic Gregorian
    calendar. *)
Definition days_from_civil (y m d : Z) : Z :=
  (let y := if m <=? 2 then y - 1 else y in
   let era := y / 400 in
   let yoe := y - era * 400 in
   let mp := (m + 9) mod 12 in
   let doy := (153 * mp + 2) / 5 + d - 1 in
   let doe := yoe * 365 + yoe / 4 - yoe / 100 + doy in
   era * 146097 + doe - 719468)%Z.

Definition newDate_ref (v : JsValue) : JsDate :=
  match v with
  | JsString s =>
    match read_digits s 0%Z 0 with
    | (y, 4%nat, String "-" s1) =>
      match read_digits s1 0%Z 0 with
      | (m, 2%nat, String "-" s2) =>
        match read_digits s2 0%Z 0 with
        | (d, 2%nat, EmptyString) =>
          if ((1 <=? m) && (m <=? 12) && (1 <=? d) && (d <=? days_in_month y m))%Z
          then Some {| time_value := (days_from_civil y m d * 86400000)%Z;
                       full_year := y;
                       month_index := Z.to_nat (m - 1);
                       day_of_month := Z.to_nat d |}
          else None
        | _ => None
        end
      | _ => None
      end
    | _ => None
    end
  | _ => None
  end.

Definition reference_host : Host :=
  {| parseFloat := parseFloat_ref;
     StringToNumber := StringToNumber_ref;
     newDate := newDate_ref |}.

(** Records of the examples: a date, an amount and a type; the other fields
    are absent. *)
Definition record (date : string) (amount : JsValue) (type : string) : Transaction :=
  {| transaction_id := JsUndefined;
     transaction_date := JsString date;
     transaction_amount := amount;
     transaction_type := JsString type;
     merchant_name := JsUndefined;
     transaction_description := JsUndefined |}.

Definition num (z : Z) : JsValue := JsNumber (number_of_Z z).

(** ** Reference definitions for the statements *)

(** The left-to-right sum of the coerced amounts of a list of records, from
    [0]: what [reduce] and the accumulating loops compute. *)
Definition sum_amounts `{Host} (ts : list Transaction) : number :=
  fold_left js_add (map (fun t => parseFloat (transaction_amount t)) ts) (number_of_Z 0).

(** A query component is a wildcard when it is absent or falsy. *)
Definition wildcard (component : JsValue) : bool := negb (ToBoolean component).

(** The date of a record agrees with the components of a query that are not
    wildcards; the month of the query counts from 1, the month of a Date
    from 0. *)
Definition agrees_with_query `{Host} (year month day : JsValue) (t : Transaction) : bool :=
  let d := newDate (transaction_date t) in
  (wildcard year || IsStrictlyEqual (JsNumber (getFullYear d)) year)
  && (wildcard month
      || js_number_equal (getMonth d) (js_sub (ToNumber month) (number_of_Z 1)))
  && (wildcard day || IsStrictlyEqual (JsNumber (getDate d)) day).

(** A month or day argument is acceptable for the interval when, read as a
    Number, it is NaN (an absent argument is) or lies inside the interval. *)
Definition acceptable `{Host} (lo hi : Z) (v : JsValue) : bool :=
  is_NaN (ToNumber v) || in_range lo hi (ToNumber v).

(** The value a [Set] stores for [v]. *)
Definition stored_value (v : JsValue) : JsValue :=
  match v with JsNumber (S754_zero _) => JsNumber (S754_zero false) | _ => v end.

(** Each value at its first occurrence: the head, then the rest without the
    values equal to the head. *)
Fixpoint first_seen (vs : list JsValue) : list JsValue :=
  match vs with
  | [] => []
  | v :: rest => v :: List.filter (fun w => negb (SameValueZero v w)) (first_seen rest)
  end.

(** The month bucket of a record, and the number of records of a bucket. *)
Definition month_key `{Host} (t : Transaction) : PropertyKey :=
  ToPropertyKey_getMonth (newDate (transaction_date t)).

Definition bucket_count `{Host} (ts : list Transaction) (k : PropertyKey) : nat :=
  length (List.filter (fun t => bool_decide (month_key t = k)) ts).

(** Every record of the list has a date the host can read. *)
Definition valid_dates `{Host} (ts : list Transaction) : Prop :=
  forall t, In t ts ->
    exists f, newDate (transaction_date t) = Some f /\ (month_index f < 12)%nat.

Definition is_debit (t : Transaction) : bool :=
  IsStrictlyEqual (transaction_type t) (JsString "debit").

(** ** Example arrays *)

(** Two records of January 2019 and one of February. *)
Definition winter_ledger : TransactionAnalyzer :=
  constructor [ record "2019-01-14" (num 100) "debit";
                record "2019-01-15" (JsString "200") "credit";
                record "2019-02-01" (num 7) "debit" ].

(** March and January hold two records each, February one; March comes
    first in the array. *)
Definition tie_ledger : TransactionAnalyzer :=
  constructor [ record "2019-03-05" (num 10) "debit";
                record "2019-01-14" (num 20) "credit";
                record "2019-03-09" (num 30) "credit";
                record "2019-02-01" (num 40) "debit";
                record "2019-01-20" (num 50) "debit" ].

(** One record with amount [50]. *)
Definition fifty_ledger : TransactionAnalyzer :=
  constructor [ record "2019-01-14" (num 50) "debit" ].

(** Credits only, one of them with an amount that is no number. *)
Definition credit_ledger : TransactionAnalyzer :=
  constructor [ record "2019-01-14" (num 100) "credit";
                record "2019-01-15" (JsString "abc") "credit";
                record "2019-01-16" (num 150) "credit" ].

Definition empty_ledger : TransactionAnalyzer := constructor [].

(** A debit of [10 ^ 16] followed by two credits of [1]. *)
Definition large_ledger : TransactionAnalyzer :=
  constructor [ record "2019-01-14" (num (10 ^ 16)) "debit";
                record "2019-01-15" (num 1) "credit";
                record "2019-01-16" (num 1) "credit" ].

(** ** The other methods of the class *)

Section OtherMethods.
Context `{Host}.

Definition getTransactionsByType (this : TransactionAnalyzer) (type : JsValue)
  : list Transaction :=
  List.filter (fun transaction => IsStrictlyEqual (transaction_type transaction) type)
              (transactions this).

Definition getTransactionsByMerchant (this : TransactionAnalyzer) (merchantName : JsValue)
  : list Transaction :=
  List.filter (fun transaction => IsStrictlyEqual (merchant_name transaction) merchantName)
              (transactions this).

(** The counting loop of [mostTransactionTypes]: the state is
    [(debitCount, creditCount)]; the counts stay below the length of the
    array and are kept as [nat]. *)
Definition count_types (ts : list Transaction) : nat * nat :=
  fold_left (fun '(debitCount, creditCount) transaction =>
               if IsStrictlyEqual (transaction_type transaction) (JsString "debit")
               then (S debitCount, creditCount)
               else if IsStrictlyEqual (transaction_type transaction) (JsString "credit")
                    then (debitCount, S creditCount)
                    else (debitCount, creditCount))
            ts (0%nat, 0%nat).

Definition mostTransactionTypes (this : TransactionAnalyzer) : string :=
  let '(debitCount, creditCount) := count_types (transactions this) in
  if (creditCount <? debitCount)%nat then "debit"
  else if (debitCount <? creditCount)%nat then "credit"
  else "equal".

Definition getTransactionsBeforeDate (this : TransactionAnalyzer) (date : JsValue)
  : list Transaction :=
  let targetDate := newDate date in
  List.filter (fun transaction =>
                 let transactionDate := newDate (transaction_date transaction) in
                 js_lt (valueOf transactionDate) (valueOf targetDate))
              (transactions this).

(** [find] returns the first element the test accepts, and [undefined]
    ([None]) when there is none. *)
Definition findTransactionById (this : TransactionAnalyzer) (id : JsValue)
  : option Transaction :=
  List.find (fun transaction => IsStrictlyEqual (transaction_id transaction) id)
            (transactions this).

Definition mapTransactionDescriptions (this : TransactionAnalyzer) : list JsValue :=
  map (fun transaction => transaction_description transaction) (transactions this).

End OtherMethods.

(** A record with an identifier and a description besides. *)
Definition full_record (id date : string) (amount : JsValue) (type merchant description : string)
  : Transaction :=
  {| transaction_id := JsString id;
     transaction_date := JsString date;
     transaction_amount := amount;
     transaction_type := JsString type;
     merchant_name := JsString merchant;
     transaction_description := JsString description |}.

(** Three records, the first and the last with the same identifier. *)
Definition shop_ledger : TransactionAnalyzer :=
  constructor [ full_record "1" "2019-01-14" (num 100) "debit" "SuperMart" "groceries";
                full_record "2" "2019-02-03" (num 40) "credit" "Cafe" "refund";
                full_record "1" "2019-03-10" (num 15) "debit" "Cafe" "coffee" ].

(** A debit, then a credit whose amount is no number. *)
Definition poisoned_ledger : TransactionAnalyzer :=
  constructor [ record "2019-01-14" (num 100) "debit";
                record "2019-01-15" (JsString "abc") "credit" ].

(** The host can read the date of the record. *)
Definition has_valid_date `{Host} (t : Transaction) : bool :=
  match newDate (transaction_date t) with Some _ => true | None => false end.

(** ** Definitions for the proofs *)

(** The outcomes of a comparison under which [>=] holds. *)
Definition not_Lt (c : option comparison) : bool :=
  match c with Some Lt | None => false | _ => true end.

(** [m * 2 ^ n] on mantissas, and [n] right shifts of a rounding record. *)
Definition shl (n : nat) (m : positive) : positive := Nat.iter n xO m.
Definition shr_n (n : nat) (r : shr_record) : shr_record := Nat.iter n shr_1 r.

(** The first stage of [binary_round]: the mantissa is brought to the
    exponent its number of digits asks for, by a left or a right shift. *)
Definition align (m : positive) (e : Z) : shr_record * Z :=
  let '(mz, ez) := shl_align m e (fexp prec emax (Zpos (digits2_pos m) + e)) in
  shr_fexp prec emax (Zpos mz) ez loc_Exact.

(** The second stage: rounding to nearest even, and the range check. *)
Definition finish (s : bool) (aligned : shr_record * Z) : number :=
  let '(mrs', e') := aligned in
  let '(mrs'', e'') :=
    shr_fexp prec emax (round_nearest_even (shr_m mrs') (loc_of_shr_record mrs')) e' loc_Exact in
  match shr_m mrs'' with
  | Z0 => S754_zero s
  | Zpos m => if (e'' <=? emax - prec)%Z then S754_finite s m e'' else S754_infinity s
  | Zneg _ => S754_nan
  end.

(** Integer sums over a list of records. *)
Definition sum_Z (amount_of : Transaction -> Z) (ts : list Transaction) : Z :=
  fold_right (fun t s => amount_of t + s)%Z 0%Z ts.
Definition sum_abs (amount_of : Transaction -> Z) (ts : list Transaction) : Z :=
  fold_right (fun t s => Z.abs (amount_of t) + s)%Z 0%Z ts.

(** The integer a Number holds when it holds one: its value with the
    fraction dropped. *)
Definition integer_part (n : number) : Z :=
  match n with
  | S754_finite s m e =>
    cond_Zopp s (if (0 <=? e)%Z then Zpos m * 2 ^ e else Zpos m / 2 ^ (- e))%Z
  | _ => 0%Z
  end.

(** Integer amounts: the coerced amount of each record is the Number of an
    integer, and the magnitudes of these integers add up below [2 ^ 53]. *)
Definition integer_amounts `{Host} (amount_of : Transaction -> Z) (ts : list Transaction) : Prop :=
  (forall t, In t ts -> parseFloat (transaction_amount t) = number_of_Z (amount_of t))
  /\ (sum_abs amount_of ts < 2 ^ 53)%Z.

Ltac compare_cases :=
  repeat match goal with
  | |- context [Z.compare ?a ?b] => destruct (Z.compare_spec a b)
  | H : context [Z.compare ?a ?b] |- _ => destruct (Z.compare_spec a b)
  | |- context [Pos.compare_cont Eq ?a ?b] =>
      change (Pos.compare_cont Eq a b) with (Pos.compare a b);
      destruct (Pos.compare_spec a b)
  | H : context [Pos.compare_cont Eq ?a ?b] |- _ =>
      change (Pos.compare_cont Eq a b) with (Pos.compare a b) in H;
      destruct (Pos.compare_spec a b)
  end.

(** * Properties *)

(** ** Order of the Numbers *)

Lemma SFcompare_None a b : SFcompare a b = None <-> is_NaN a = true \/ is_NaN b = true.
Proof.
  destruct a as [[]|[]| |[] ? ?], b as [[]|[]| |[] ? ?]; simpl; intuition congruence.
Qed.

Lemma SFcompare_ge_trans a b c :
  not_Lt (SFcompare a b) = true -> not_Lt (SFcompare b c) = true ->
  not_Lt (SFcompare a c) = true.
Proof.
  destruct a as [[]|[]| |[] ma ea], b as [[]|[]| |[] mb eb], c as [[]|[]| |[] mc ec];
    simpl; try congruence; try reflexivity;
    intros; compare_cases; simpl in *; try congruence; try reflexivity; try lia.
Qed.

Lemma SFcompare_Eq a b :
  SFcompare a b = Some Eq ->
  a = b \/ (exists s s', a = S754_zero s /\ b = S754_zero s').
Proof.
  destruct a as [[]|[]| |[] ma ea], b as [[]|[]| |[] mb eb]; simpl;
    try congruence; eauto;
    intros; compare_cases; simpl in *; try congruence; subst; auto.
Qed.

Lemma SFcompare_refl a : is_NaN a = false -> SFcompare a a = Some Eq.
Proof.
  destruct a as [[]|[]| |[] ma ea]; simpl; try congruence; intros _;
    rewrite Z.compare_refl;
    change (Pos.compare_cont Eq ma ma) with (Pos.compare ma ma);
    rewrite Pos.compare_refl; reflexivity.
Qed.

Lemma js_ge_not_Lt a b : js_ge a b = not_Lt (SFcompare a b).
Proof. reflexivity. Qed.

Lemma js_le_not_Lt a b : js_le a b = not_Lt (SFcompare b a).
Proof. reflexivity. Qed.

Lemma js_le_ge a b : js_le a b = js_ge b a.
Proof. reflexivity. Qed.

Lemma js_lt_le_false a b : js_le a b = true -> js_lt b a = false.
Proof. unfold js_le, js_lt. destruct (SFcompare b a) as [[]|]; congruence. Qed.

Lemma js_gt_le_false a b : js_le a b = true -> js_gt a b = false.
Proof. unfold js_le, js_gt. destruct (SFcompare b a) as [[]|]; congruence. Qed.

Lemma js_le_false_lt a b :
  is_NaN a = false -> is_NaN b = false -> js_le a b = false -> js_lt b a = true.
Proof.
  intros Ha Hb. unfold js_le, js_lt.
  destruct (SFcompare b a) as [[]|] eqn:E; try congruence.
  apply SFcompare_None in E. destruct E; congruence.
Qed.

Lemma js_le_false_gt a b :
  is_NaN a = false -> is_NaN b = false -> js_le a b = false -> js_gt a b = true.
Proof. intros Ha Hb Hle. unfold js_gt. exact (js_le_false_lt a b Ha Hb Hle). Qed.

Lemma js_ge_NaN_l b : js_ge NaN b = false.
Proof. reflexivity. Qed.

Lemma js_gt_NaN_l b : js_gt NaN b = false.
Proof. unfold js_gt. destruct b as [[]|[]| |[] ? ?]; reflexivity. Qed.

Lemma js_le_NaN_l b : js_le NaN b = false.
Proof. unfold js_le. destruct b as [[]|[]| |[] ? ?]; reflexivity. Qed.

(** An interval whose lower end lies strictly above its upper end is empty. *)
Lemma js_interval_empty lo hi x :
  js_gt lo hi = true -> js_ge x lo && js_le x hi = false.
Proof.
  intros Hgt. apply andb_false_iff.
  destruct (js_ge x lo) eqn:E1; [|now left]. right.
  destruct (js_le x hi) eqn:E2; [|reflexivity]. exfalso.
  rewrite js_ge_not_Lt in E1. rewrite js_le_not_Lt in E2.
  pose proof (SFcompare_ge_trans _ _ _ E2 E1) as Hc.
  unfold js_gt in Hgt. destruct (SFcompare hi lo) as [[]|]; simpl in Hc; congruence.
Qed.

(** ** Additions that do not round *)

Lemma binary_round_stages (s : bool) (m : positive) (e : Z) :
  binary_round prec emax s m e = finish s (align m e).
Proof.
  unfold binary_round, align, finish, binary_round_aux.
  destruct (shl_align m e _) as [mz ez].
  destruct (shr_fexp prec emax (Zpos mz) ez loc_Exact) as [mrs' e']. reflexivity.
Qed.

Lemma Pos_iter_nat {A} (f : A -> A) (x : A) (p : positive) :
  Pos.iter f x p = Nat.iter (Pos.to_nat p) f x.
Proof. apply Pos2Nat.inj_iter. Qed.

Lemma nat_iter_add {A} (f : A -> A) (x : A) (n k : nat) :
  Nat.iter (n + k) f x = Nat.iter n f (Nat.iter k f x).
Proof. induction n as [|n IH]; simpl; [reflexivity|now rewrite IH]. Qed.

Lemma iter_pos_nat {A} (f : A -> A) (p : positive) (x : A) :
  SpecFloat.iter_pos f p x = Nat.iter (Pos.to_nat p) f x.
Proof.
  revert x. induction p as [p IH|p IH|]; intros x.
  - change (SpecFloat.iter_pos f p (SpecFloat.iter_pos f p (f x))
            = Nat.iter (Pos.to_nat p~1) f x).
    rewrite !IH, Pos2Nat.inj_xI, <- nat_iter_add.
    replace (S (2 * Pos.to_nat p)) with ((Pos.to_nat p + Pos.to_nat p) + 1)%nat by lia.
    now rewrite (nat_iter_add f x (Pos.to_nat p + Pos.to_nat p) 1).
  - change (SpecFloat.iter_pos f p (SpecFloat.iter_pos f p x)
            = Nat.iter (Pos.to_nat p~0) f x).
    rewrite !IH, Pos2Nat.inj_xO, <- nat_iter_add. f_equal. lia.
  - reflexivity.
Qed.

Lemma shl_add (n k : nat) (m : positive) : shl (n + k) m = shl n (shl k m).
Proof. apply nat_iter_add. Qed.

Lemma shl_value (n : nat) (m : positive) : Zpos (shl n m) = (Zpos m * 2 ^ Z.of_nat n)%Z.
Proof.
  induction n as [|n IH]; [simpl; lia|].
  change (shl (S n) m) with (xO (shl n m)).
  rewrite Pos2Z.inj_xO, IH, Nat2Z.inj_succ, Z.pow_succ_r by lia. lia.
Qed.

Lemma shl_digits (n : nat) (m : positive) :
  Zpos (digits2_pos (shl n m)) = (Zpos (digits2_pos m) + Z.of_nat n)%Z.
Proof.
  induction n as [|n IH]; [simpl; lia|].
  change (shl (S n) m) with (xO (shl n m)). simpl digits2_pos.
  rewrite Pos2Z.inj_succ, IH. lia.
Qed.

Lemma shr_n_add (n k : nat) (r : shr_record) : shr_n (n + k) r = shr_n n (shr_n k r).
Proof. apply nat_iter_add. Qed.

Lemma shr_n_shl (n : nat) (m : positive) :
  shr_n n {| shr_m := Zpos (shl n m); shr_r := false; shr_s := false |}
  = {| shr_m := Zpos m; shr_r := false; shr_s := false |}.
Proof.
  induction n as [|n IH]; [reflexivity|].
  replace (S n) with (n + 1)%nat by lia. rewrite shr_n_add.
  replace (n + 1)%nat with (S n) by lia.
  change (shl (S n) m) with (xO (shl n m)). simpl shr_n at 2. exact IH.
Qed.

Lemma shl_align_shl (m : positive) (e fe : Z) :
  shl_align m e fe = if (fe <? e)%Z then (shl (Z.to_nat (e - fe)) m, fe) else (m, e).
Proof.
  unfold shl_align. destruct (Z.ltb_spec fe e) as [Hlt|Hge].
  - destruct (fe - e)%Z as [|d|d] eqn:Hd; try lia.
    rewrite Pos_iter_nat. unfold shl. do 2 f_equal. lia.
  - destruct (fe - e)%Z as [|d|d] eqn:Hd; try lia; reflexivity.
Qed.

Lemma shr_shr_n (r : shr_record) (e n : Z) :
  (0 <= n)%Z -> shr r e n = (shr_n (Z.to_nat n) r, (e + n)%Z).
Proof.
  intros Hn. unfold shr. destruct n as [|p|p]; try lia.
  - simpl. f_equal. lia.
  - rewrite iter_pos_nat. reflexivity.
Qed.

(** What [align] computes, with [fe] the exponent the digits ask for. *)
Lemma align_eq (m : positive) (e : Z) :
  let fe := fexp prec emax (Zpos (digits2_pos m) + e) in
  align m e
  = (if (fe <? e)%Z
     then {| shr_m := Zpos (shl (Z.to_nat (e - fe)) m); shr_r := false; shr_s := false |}
     else shr_n (Z.to_nat (fe - e)) {| shr_m := Zpos m; shr_r := false; shr_s := false |},
     fe).
Proof.
  intros fe. unfold align. fold fe. rewrite shl_align_shl.
  destruct (Z.ltb_spec fe e) as [Hlt|Hge]; unfold shr_fexp; simpl Zdigits2; simpl shr_record_of_loc.
  - rewrite shl_digits, Z2Nat.id by lia.
    replace (Zpos (digits2_pos m) + (e - fe) + fe)%Z with (Zpos (digits2_pos m) + e)%Z by lia.
    fold fe. rewrite Z.sub_diag. reflexivity.
  - fold fe. rewrite shr_shr_n by lia. f_equal. lia.
Qed.

(** Scaling the mantissa by a power of two and lowering the exponent by as
    much leaves the aligned value unchanged. *)
Lemma align_shl (k : nat) (m : positive) (e : Z) :
  align (shl k m) (e - Z.of_nat k) = align m e.
Proof.
  rewrite !align_eq. cbv zeta. rewrite shl_digits.
  replace (Zpos (digits2_pos m) + Z.of_nat k + (e - Z.of_nat k))%Z
    with (Zpos (digits2_pos m) + e)%Z by lia.
  set (fe := fexp prec emax (Zpos (digits2_pos m) + e)). f_equal.
  destruct (Z.ltb_spec fe (e - Z.of_nat k)) as [H1|H1];
    destruct (Z.ltb_spec fe e) as [H2|H2]; try lia.
  - rewrite <- shl_add. do 3 f_equal. lia.
  - replace k with (Z.to_nat (fe - (e - Z.of_nat k)) + Z.to_nat (e - fe))%nat at 2 by lia.
    rewrite shl_add. apply shr_n_shl.
  - replace (Z.to_nat (fe - (e - Z.of_nat k))) with (Z.to_nat (fe - e) + k)%nat by lia.
    rewrite shr_n_add, shr_n_shl. reflexivity.
Qed.

Lemma digits2_pos_lower (m : positive) : (2 ^ (Zpos (digits2_pos m) - 1) <= Zpos m)%Z.
Proof.
  induction m as [m IH|m IH|]; simpl digits2_pos; [| |simpl; lia].
  - rewrite Pos2Z.inj_succ, (Pos2Z.inj_xI m).
    replace (Z.succ (Zpos (digits2_pos m)) - 1)%Z with (Z.succ (Zpos (digits2_pos m) - 1)) by lia.
    rewrite Z.pow_succ_r by lia. lia.
  - rewrite Pos2Z.inj_succ, (Pos2Z.inj_xO m).
    replace (Z.succ (Zpos (digits2_pos m)) - 1)%Z with (Z.succ (Zpos (digits2_pos m) - 1)) by lia.
    rewrite Z.pow_succ_r by lia. lia.
Qed.

Lemma digits2_pos_bound (m : positive) :
  (Zpos m < 2 ^ 53)%Z -> (Zpos (digits2_pos m) <= 53)%Z.
Proof.
  intros Hm. destruct (Z.le_gt_cases (Zpos (digits2_pos m)) 53) as [|Hgt]; [assumption|].
  pose proof (digits2_pos_lower m) as Hlow.
  assert (2 ^ 53 <= 2 ^ (Zpos (digits2_pos m) - 1))%Z by (apply Z.pow_le_mono_r; lia).
  lia.
Qed.

(** An integer below [2 ^ 53] in magnitude is a Number: its mantissa is the
    integer scaled to 53 digits. *)
Lemma binary_round_small (s : bool) (m : positive) :
  (Zpos m < 2 ^ 53)%Z ->
  let k := Z.to_nat (53 - Zpos (digits2_pos m)) in
  binary_round prec emax s m 0 = S754_finite s (shl k m) (- Z.of_nat k).
Proof.
  intros Hm k. pose proof (digits2_pos_bound m Hm) as Hd.
  rewrite binary_round_stages, align_eq. cbv zeta.
  assert (Hfe : fexp prec emax (Zpos (digits2_pos m) + 0) = (- Z.of_nat k)%Z).
  { unfold fexp, emin, prec, emax, k. lia. }
  rewrite Hfe.
  assert (Hrec : (if (- Z.of_nat k <? 0)%Z
                  then {| shr_m := Zpos (shl (Z.to_nat (0 - - Z.of_nat k)) m);
                          shr_r := false; shr_s := false |}
                  else shr_n (Z.to_nat (- Z.of_nat k - 0))
                             {| shr_m := Zpos m; shr_r := false; shr_s := false |})
                 = {| shr_m := Zpos (shl k m); shr_r := false; shr_s := false |}).
  { destruct (Z.ltb_spec (- Z.of_nat k) 0) as [Hlt|Hge].
    - do 3 f_equal. lia.
    - assert (k = 0%nat) as -> by lia. reflexivity. }
  rewrite Hrec. unfold finish. simpl round_nearest_even.
  unfold shr_fexp. simpl Zdigits2. rewrite shl_digits.
  replace (fexp prec emax (Zpos (digits2_pos m) + Z.of_nat k + - Z.of_nat k))
    with (- Z.of_nat k)%Z by (rewrite <- Hfe; f_equal; lia).
  rewrite Z.sub_diag. simpl.
  destruct (Z.leb_spec (- Z.of_nat k) (emax - prec)) as [_|Hbad]; [reflexivity|].
  unfold emax, prec in Hbad. lia.
Qed.

Lemma binary_normalize_scale (z : Z) (k : nat) :
  binary_normalize prec emax (z * 2 ^ Z.of_nat k) (- Z.of_nat k) false = number_of_Z z.
Proof.
  unfold number_of_Z. destruct z as [|p|p].
  - reflexivity.
  - rewrite <- shl_value. unfold binary_normalize.
    rewrite !binary_round_stages. f_equal. apply (align_shl k p 0).
  - replace (Zneg p * 2 ^ Z.of_nat k)%Z with (Zneg (shl k p))
      by (rewrite <- !Pos2Z.opp_pos, shl_value; lia).
    unfold binary_normalize.
    rewrite !binary_round_stages. f_equal. apply (align_shl k p 0).
Qed.

Lemma number_of_Z_small (z : Z) :
  z <> 0%Z -> (Z.abs z < 2 ^ 53)%Z ->
  exists (p : positive) (k : nat),
    Zpos p = Z.abs z /\ number_of_Z z = S754_finite (z <? 0)%Z (shl k p) (- Z.of_nat k).
Proof.
  intros Hz Hsmall. unfold number_of_Z, binary_normalize.
  destruct z as [|p|p]; [congruence| |].
  - exists p, (Z.to_nat (53 - Zpos (digits2_pos p))). split; [reflexivity|].
    apply binary_round_small. exact Hsmall.
  - exists p, (Z.to_nat (53 - Zpos (digits2_pos p))). split; [reflexivity|].
    apply binary_round_small. exact Hsmall.
Qed.

(** The sum of two integers below [2 ^ 53] in magnitude is the Number
    nearest to their integer sum; it is that sum when it is below [2 ^ 53]
    too. *)
Lemma js_add_integers (a b : Z) :
  (Z.abs a < 2 ^ 53)%Z -> (Z.abs b < 2 ^ 53)%Z ->
  js_add (number_of_Z a) (number_of_Z b) = number_of_Z (a + b).
Proof.
  intros Ha Hb.
  destruct (Z.eq_dec a 0%Z) as [->|Hna].
  { rewrite Z.add_0_l. destruct (Z.eq_dec b 0%Z) as [->|Hnb]; [reflexivity|].
    destruct (number_of_Z_small b Hnb Hb) as (p & k & _ & ->). reflexivity. }
  destruct (Z.eq_dec b 0%Z) as [->|Hnb].
  { rewrite Z.add_0_r.
    destruct (number_of_Z_small a Hna Ha) as (p & k & _ & ->). reflexivity. }
  destruct (number_of_Z_small a Hna Ha) as (pa & ka & Hpa & ->).
  destruct (number_of_Z_small b Hnb Hb) as (pb & kb & Hpb & ->).
  unfold js_add, SFadd. cbv zeta. rewrite !shl_align_shl.
  set (K := Nat.max ka kb).
  assert (Hmin : Z.min (- Z.of_nat ka) (- Z.of_nat kb) = (- Z.of_nat K)%Z) by lia.
  rewrite Hmin.
  assert (Hfst : forall (p : positive) (k : nat), (k <= K)%nat ->
            Zpos (fst (if (- Z.of_nat K <? - Z.of_nat k)%Z
                       then (shl (Z.to_nat (- Z.of_nat k - - Z.of_nat K)) (shl k p), (- Z.of_nat K)%Z)
                       else (shl k p, (- Z.of_nat k)%Z)))
            = (Zpos p * 2 ^ Z.of_nat K)%Z).
  { intros p k Hk. destruct (Z.ltb_spec (- Z.of_nat K) (- Z.of_nat k)) as [Hlt|Hge]; simpl fst.
    - rewrite <- shl_add, shl_value. do 2 f_equal. lia.
    - rewrite shl_value. do 2 f_equal. lia. }
  rewrite (Hfst pa ka), (Hfst pb kb) by lia.
  replace (cond_Zopp (a <? 0)%Z (Zpos pa * 2 ^ Z.of_nat K)
           + cond_Zopp (b <? 0)%Z (Zpos pb * 2 ^ Z.of_nat K))%Z
    with ((a + b) * 2 ^ Z.of_nat K)%Z.
  - apply binary_normalize_scale.
  - unfold cond_Zopp.
    destruct (Z.ltb_spec a 0), (Z.ltb_spec b 0); nia.
Qed.

(** ** Sums *)

Section Sums.
Context `{Host}.

Lemma fold_left_sum_filter (p : Transaction -> bool) (ts : list Transaction) (acc : number) :
  fold_left (fun total t =>
               if p t then js_add total (parseFloat (transaction_amount t)) else total)
            ts acc
  = fold_left js_add (map (fun t => parseFloat (transaction_amount t)) (List.filter p ts)) acc.
Proof.
  revert acc. induction ts as [|t ts IH]; intros acc; simpl; [reflexivity|].
  destruct (p t); simpl; apply IH.
Qed.

Lemma fold_left_sum_all (ts : list Transaction) (acc : number) :
  fold_left (fun total t => js_add total (parseFloat (transaction_amount t))) ts acc
  = fold_left js_add (map (fun t => parseFloat (transaction_amount t)) ts) acc.
Proof.
  revert acc. induction ts as [|t ts IH]; intros acc; simpl; [reflexivity|apply IH].
Qed.

Lemma calculateTotalAmount_sum (analyzer this : TransactionAnalyzer) :
  calculateTotalAmount analyzer this = sum_amounts (transactions analyzer).
Proof. apply fold_left_sum_all. Qed.

Lemma calculateTotalDebitAmount_sum (this : TransactionAnalyzer) :
  calculateTotalDebitAmount this = sum_amounts (List.filter is_debit (transactions this)).
Proof. apply fold_left_sum_filter. Qed.

End Sums.

(** ** Sums of integer amounts *)

Section ExactSums.
Context `{Host}.

Lemma sum_abs_filter (amount_of : Transaction -> Z) (p : Transaction -> bool)
      (ts : list Transaction) :
  (0 <= sum_abs amount_of (List.filter p ts) <= sum_abs amount_of ts)%Z.
Proof.
  unfold sum_abs. induction ts as [|t ts IH]; simpl; [lia|].
  destruct (p t); simpl; lia.
Qed.

Lemma sum_Z_abs (amount_of : Transaction -> Z) (ts : list Transaction) :
  (Z.abs (sum_Z amount_of ts) <= sum_abs amount_of ts)%Z.
Proof. unfold sum_Z, sum_abs. induction ts as [|t ts IH]; simpl; lia. Qed.

Lemma sum_Z_split (amount_of : Transaction -> Z) (p : Transaction -> bool)
      (ts : list Transaction) :
  sum_Z amount_of ts
  = (sum_Z amount_of (List.filter p ts)
     + sum_Z amount_of (List.filter (fun t => negb (p t)) ts))%Z.
Proof.
  unfold sum_Z. induction ts as [|t ts IH]; simpl; [reflexivity|].
  destruct (p t); simpl; lia.
Qed.

Lemma integer_amounts_filter (amount_of : Transaction -> Z) (p : Transaction -> bool)
      (ts : list Transaction) :
  integer_amounts amount_of ts -> integer_amounts amount_of (List.filter p ts).
Proof.
  intros [Hall Hsum]. split.
  - intros t Ht. apply filter_In in Ht. apply Hall, Ht.
  - pose proof (sum_abs_filter amount_of p ts). lia.
Qed.

Lemma fold_left_js_add_integers (amount_of : Transaction -> Z) (ts : list Transaction) (acc : Z) :
  (forall t, In t ts -> parseFloat (transaction_amount t) = number_of_Z (amount_of t)) ->
  (Z.abs acc + sum_abs amount_of ts < 2 ^ 53)%Z ->
  fold_left js_add (map (fun t => parseFloat (transaction_amount t)) ts) (number_of_Z acc)
  = number_of_Z (acc + sum_Z amount_of ts).
Proof.
  revert acc. unfold sum_abs, sum_Z.
  induction ts as [|t ts IH]; intros acc Hall Hsum; simpl in *.
  - now rewrite Z.add_0_r.
  - pose proof (sum_abs_filter amount_of (fun _ => true) ts) as Hpos.
    unfold sum_abs in Hpos.
    rewrite (Hall t (or_introl eq_refl)), js_add_integers by lia.
    rewrite IH; [f_equal; lia| |lia].
    intros t' Ht'. apply Hall. now right.
Qed.

(** On integer amounts the sum of the coerced amounts is the Number of the
    integer sum. *)
Lemma sum_amounts_integers (amount_of : Transaction -> Z) (ts : list Transaction) :
  integer_amounts amount_of ts -> sum_amounts ts = number_of_Z (sum_Z amount_of ts).
Proof.
  intros [Hall Hsum]. unfold sum_amounts.
  rewrite (fold_left_js_add_integers amount_of ts 0 Hall) by (simpl; lia).
  reflexivity.
Qed.

(** The total of the array the method reads splits into its debit total and
    the sum of its other records on integer amounts; there no addition
    rounds. *)
Lemma calculateTotalAmount_split_integers (amount_of : Transaction -> Z)
      (analyzer : TransactionAnalyzer) :
  integer_amounts amount_of (transactions analyzer) ->
  calculateTotalAmount analyzer analyzer
  = js_add (calculateTotalDebitAmount analyzer)
           (sum_amounts (List.filter (fun t => negb (is_debit t)) (transactions analyzer))).
Proof.
  intros Hint. destruct Hint as [Hall Hsum] eqn:E. clear E.
  rewrite calculateTotalAmount_sum, calculateTotalDebitAmount_sum.
  rewrite (sum_amounts_integers amount_of) by (split; assumption).
  rewrite !(sum_amounts_integers amount_of) by (apply integer_amounts_filter; split; assumption).
  pose proof (sum_Z_abs amount_of (List.filter is_debit (transactions analyzer))).
  pose proof (sum_Z_abs amount_of
                (List.filter (fun t => negb (is_debit t)) (transactions analyzer))).
  pose proof (sum_abs_filter amount_of is_debit (transactions analyzer)).
  pose proof (sum_abs_filter amount_of (fun t => negb (is_debit t)) (transactions analyzer)).
  rewrite js_add_integers by lia.
  now rewrite <- sum_Z_split.
Qed.

End ExactSums.

(** ** addTransaction and getAllTransactions *)

Lemma addTransaction_all (rs : list Transaction) (this : TransactionAnalyzer) :
  getAllTransactions (fold_left addTransaction rs this) = getAllTransactions this ++ rs.
Proof.
  revert this. induction rs as [|r rs IH]; intros this; simpl.
  - now rewrite app_nil_r.
  - rewrite IH. unfold getAllTransactions, addTransaction. simpl.
    now rewrite <- app_assoc.
Qed.

(** C8. [addTransaction] checks nothing and appends its argument at the end of
    the array; after appending the records [rs] one by one to any analyzer,
    [getAllTransactions()] is the former array followed by [rs] in the order of
    the calls, and its length has grown by the number of calls. *)
Theorem addTransaction_round_trip :
  forall (this : TransactionAnalyzer) (r : Transaction) (rs : list Transaction),
    getAllTransactions (addTransaction this r) = getAllTransactions this ++ [r]
    /\ getAllTransactions (fold_left addTransaction rs this)
       = getAllTransactions this ++ rs
    /\ length (getAllTransactions (fold_left addTransaction rs this))
       = (length (getAllTransactions this) + length rs)%nat.
Proof.
  intros this r rs. split; [reflexivity|]. split.
  - apply addTransaction_all.
  - rewrite addTransaction_all. apply length_app.
Qed.

(** ** Filters *)

(** C9. [getTransactionsInDateRange(start, end)] keeps, in the order of the
    array, exactly the records [t] with [start <= date(t) <= end] on the time
    values of the parsed dates; when the parsed start lies strictly after the
    parsed end the result is empty whatever the array holds. *)
Theorem getTransactionsInDateRange_inclusive :
  forall `{Host} (this : TransactionAnalyzer) (startDate endDate : JsValue),
    let start := valueOf (newDate startDate) in
    let end_ := valueOf (newDate endDate) in
    let date t := valueOf (newDate (transaction_date t)) in
    getTransactionsInDateRange this startDate endDate
    = List.filter (fun t => js_le start (date t) && js_le (date t) end_) (transactions this)
    /\ (forall t, In t (getTransactionsInDateRange this startDate endDate)
                  <-> In t (transactions this)
                      /\ js_le start (date t) = true /\ js_le (date t) end_ = true)
    /\ sublist (getTransactionsInDateRange this startDate endDate) (transactions this)
    /\ (js_gt start end_ = true -> getTransactionsInDateRange this startDate endDate = []).
Proof.
  intros Hhost this startDate endDate start end_ date.
  assert (Heq : getTransactionsInDateRange this startDate endDate
                = List.filter (fun t => js_le start (date t) && js_le (date t) end_)
                              (transactions this)) by reflexivity.
  split; [exact Heq|]. split; [|split].
  - intros t. rewrite Heq, filter_In, andb_true_iff. tauto.
  - rewrite Heq. clear Heq. induction (transactions this) as [|t ts IH]; simpl.
    + constructor.
    + destruct (js_le start (date t) && js_le (date t) end_);
        [apply sublist_skip|apply sublist_cons]; exact IH.
  - intros Hgt. rewrite Heq. clear Heq.
    induction (transactions this) as [|t ts IH]; simpl; [reflexivity|].
    rewrite js_le_ge. rewrite (js_interval_empty start end_ (date t) Hgt). exact IH.
Qed.

(** C10. [getTransactionsByAmountRange(min, max)] never returns a record
    whose amount coerces to NaN, whatever the bounds: NaN passes neither
    [amount >= min] nor [amount <= max].  The result is a part of the array in
    its order. *)
Theorem getTransactionsByAmountRange_excludes_NaN :
  forall `{Host} (this : TransactionAnalyzer) (minAmount maxAmount : JsValue),
    (forall t, In t (getTransactionsByAmountRange this minAmount maxAmount) ->
               is_NaN (parseFloat (transaction_amount t)) = false)
    /\ (forall t, is_NaN (parseFloat (transaction_amount t)) = true ->
                  ~ In t (getTransactionsByAmountRange this minAmount maxAmount))
    /\ sublist (getTransactionsByAmountRange this minAmount maxAmount) (transactions this)
    /\ (forall bound, js_ge NaN bound = false /\ js_le NaN bound = false).
Proof.
  intros Hhost this minAmount maxAmount.
  assert (Hin : forall t, In t (getTransactionsByAmountRange this minAmount maxAmount) ->
                          is_NaN (parseFloat (transaction_amount t)) = false).
  { intros t Ht. unfold getTransactionsByAmountRange in Ht.
    apply filter_In in Ht. destruct Ht as [_ Ht].
    apply andb_true_iff in Ht. destruct Ht as [Hge _].
    destruct (parseFloat (transaction_amount t)); try reflexivity.
    rewrite js_ge_NaN_l in Hge. discriminate. }
  split; [exact Hin|]. split; [|split].
  - intros t Hnan Ht. apply Hin in Ht. congruence.
  - unfold getTransactionsByAmountRange.
    induction (transactions this) as [|t ts IH]; simpl; [constructor|].
    match goal with |- context [if ?b then _ else _] => destruct b end;
      [apply sublist_skip|apply sublist_cons]; exact IH.
  - intros bound. split; [apply js_ge_NaN_l|apply js_le_NaN_l].
Qed.

(** ** Average *)

(** C6. [calculateAverageTransactionAmount()] is [0] on an empty array and
    otherwise the left-to-right sum of the coerced amounts divided by the
    number of records; on one record whose amount coerces to [50] it is [50]. *)
Theorem calculateAverageTransactionAmount_spec :
  forall `{Host} (this : TransactionAnalyzer),
    (transactions this = [] ->
     calculateAverageTransactionAmount this = number_of_Z 0)
    /\ (transactions this <> [] ->
        calculateAverageTransactionAmount this
        = js_div (sum_amounts (transactions this))
                 (number_of_nat (length (transactions this))))
    /\ (forall t, transactions this = [t] ->
                  parseFloat (transaction_amount t) = number_of_Z 50 ->
                  calculateAverageTransactionAmount this = number_of_Z 50).
Proof.
  intros Hhost this. unfold calculateAverageTransactionAmount.
  split; [|split].
  - intros ->. reflexivity.
  - intros Hne. destruct (transactions this) as [|t ts] eqn:E; [congruence|].
    cbn [length]. unfold sum_amounts. now rewrite fold_left_sum_all.
  - intros t -> Ht. simpl. rewrite Ht. vm_compute. reflexivity.
Qed.
(** ** Sets of types *)

Lemma js_number_equal_stored a b :
  (is_NaN a = true /\ is_NaN b = true) \/ js_number_equal a b = true
  <-> stored_value (JsNumber a) = stored_value (JsNumber b).
Proof.
  split.
  - intros [[Ha Hb]|Heq].
    + destruct a, b; try discriminate. reflexivity.
    + unfold js_number_equal, SFeqb in Heq.
      destruct (SFcompare a b) as [[]|] eqn:Hc; try discriminate.
      apply SFcompare_Eq in Hc. destruct Hc as [->|(s & s' & -> & ->)]; reflexivity.
  - intros Heq. destruct (is_NaN a) eqn:Ha.
    + left. split; [reflexivity|].
      destruct a; try discriminate. destruct b as [[]|[]| |[] ? ?]; simpl in *; congruence.
    + right. unfold js_number_equal, SFeqb.
      assert (Hc : SFcompare a b = Some Eq); [|now rewrite Hc].
      destruct a as [[]|[]| |[] ma ea], b as [[]|[]| |[] mb eb];
        simpl in Heq, Ha; try discriminate; try reflexivity;
        injection Heq as -> ->; apply SFcompare_refl; reflexivity.
Qed.

Lemma SameValueZero_numbers a b :
  SameValueZero (JsNumber a) (JsNumber b) = true
  <-> (is_NaN a = true /\ is_NaN b = true) \/ js_number_equal a b = true.
Proof.
  destruct a as [[]|[]| |[] ma ea], b as [[]|[]| |[] mb eb]; simpl;
    intuition congruence.
Qed.

Lemma SameValueZero_stored x y :
  SameValueZero x y = true <-> stored_value x = stored_value y.
Proof.
  destruct x as [| |a|a|a], y as [| |b|b|b];
    try (rewrite SameValueZero_numbers; apply js_number_equal_stored);
    try (simpl; tauto);
    try (simpl; split; discriminate);
    try (destruct a as [[]|[]| |[] ? ?]; simpl; split; discriminate);
    try (destruct b as [[]|[]| |[] ? ?]; simpl; split; discriminate).
  - destruct a, b; simpl; split; congruence.
  - simpl. rewrite String.eqb_eq. split; congruence.
Qed.

Lemma SameValueZero_sym x y : SameValueZero x y = SameValueZero y x.
Proof.
  apply eq_true_iff_eq. rewrite !SameValueZero_stored. split; congruence.
Qed.

Lemma SameValueZero_trans x y z :
  SameValueZero x y = true -> SameValueZero y z = true -> SameValueZero x z = true.
Proof. rewrite !SameValueZero_stored. congruence. Qed.

Lemma SameValueZero_refl x : SameValueZero x x = true.
Proof. now apply SameValueZero_stored. Qed.

Lemma stored_value_idem v : stored_value (stored_value v) = stored_value v.
Proof. destruct v as [| | | [[]|[]| |[] ? ?] |]; reflexivity. Qed.

Lemma Set_add_stored (s : JsSet) (v : JsValue) :
  Set_add s v = if Set_has s (stored_value v) then s else s ++ [stored_value v].
Proof.
  unfold Set_add.
  replace (match v with
           | JsNumber (S754_zero true) => JsNumber (S754_zero false)
           | _ => v
           end) with (stored_value v); [reflexivity|].
  destruct v as [| | | [[]|[]| |[] ? ?] |]; reflexivity.
Qed.

Lemma Set_has_congr (s : JsSet) x y :
  SameValueZero x y = true -> Set_has s x = Set_has s y.
Proof.
  intros Hxy. unfold Set_has. induction s as [|z s IH]; simpl; [reflexivity|].
  rewrite IH. f_equal. apply eq_true_iff_eq. split; intros Hz.
  - rewrite SameValueZero_sym in Hxy. eapply SameValueZero_trans; eassumption.
  - eapply SameValueZero_trans; eassumption.
Qed.

Lemma Set_has_app (s : JsSet) x y :
  Set_has (s ++ [x]) y = Set_has s y || SameValueZero x y.
Proof.
  unfold Set_has. rewrite existsb_app. simpl. rewrite orb_false_r.
  now rewrite (SameValueZero_sym y x).
Qed.

Lemma filter_filter {A} (p q : A -> bool) (l : list A) :
  List.filter p (List.filter q l) = List.filter (fun x => q x && p x) l.
Proof.
  induction l as [|x l IH]; simpl; [reflexivity|].
  destruct (q x); simpl; [destruct (p x)|]; now rewrite IH.
Qed.

Lemma filter_ext' {A} (p q : A -> bool) (l : list A) :
  (forall x, p x = q x) -> List.filter p l = List.filter q l.
Proof.
  intros Hpq. induction l as [|x l IH]; simpl; [reflexivity|].
  now rewrite Hpq, IH.
Qed.

(** The loop of [getUniqueTransactionType] from a set [s]: the set, then the
    first occurrences of the values it does not hold yet. *)
Lemma fold_Set_add (vs : list JsValue) (s : JsSet) :
  fold_left Set_add vs s
  = s ++ List.filter (fun w => negb (Set_has s w)) (first_seen (map stored_value vs)).
Proof.
  revert s. induction vs as [|v vs IH]; intros s; simpl.
  - now rewrite app_nil_r.
  - rewrite IH, Set_add_stored. set (v' := stored_value v).
    destruct (Set_has s v') eqn:Hhas; simpl.
    + f_equal. rewrite filter_filter. apply filter_ext'. intros w.
      destruct (SameValueZero v' w) eqn:Hvw; simpl; [|reflexivity].
      now rewrite <- (Set_has_congr s v' w Hvw), Hhas.
    + rewrite <- app_assoc. simpl. f_equal. f_equal.
      rewrite filter_filter. apply filter_ext'. intros w.
      rewrite Set_has_app, negb_orb. apply andb_comm.
Qed.

Lemma SameValueZero_stored_eq x y :
  stored_value x = x -> stored_value y = y -> SameValueZero x y = true -> x = y.
Proof. intros Hx Hy Hxy. apply SameValueZero_stored in Hxy. congruence. Qed.

Lemma first_seen_In vs v :
  Forall (fun w => stored_value w = w) vs -> In v (first_seen vs) <-> In v vs.
Proof.
  induction 1 as [|x vs Hx Hvs IH]; simpl; [tauto|].
  rewrite filter_In, IH, negb_true_iff. split; [tauto|].
  intros [->|Hin]; [now left|].
  destruct (SameValueZero x v) eqn:E; [|tauto].
  left. apply SameValueZero_stored_eq; try assumption.
  rewrite Forall_forall in Hvs. apply Hvs, list_elem_of_In, Hin.
Qed.

Lemma first_seen_NoDup vs : NoDup (first_seen vs).
Proof.
  induction vs as [|x vs IH]; simpl; [constructor|]. constructor.
  - rewrite list_elem_of_In, filter_In, SameValueZero_refl. simpl. intros [_ ?]. discriminate.
  - apply NoDup_ListNoDup, List.NoDup_filter, NoDup_ListNoDup, IH.
Qed.

Lemma fold_left_through_map {A B C} (f : A -> B -> A) (g : C -> B) (l : list C) (a : A) :
  fold_left (fun acc c => f acc (g c)) l a = fold_left f (map g l) a.
Proof. revert a. induction l as [|c l IH]; intros a; simpl; [reflexivity|apply IH]. Qed.

(** C7. [getUniqueTransactionType()] returns each type of the array once, at
    the place of its first occurrence: the type of the first record, then the
    first-seen types of the rest without those equal to it.  The values are
    the ones a [Set] stores (a zero loses its sign), compared by
    [SameValueZero].  On the types debit, credit, debit the result is debit,
    credit. *)
Theorem getUniqueTransactionType_first_seen :
  forall (this : TransactionAnalyzer),
    let types := map (fun t => stored_value (transaction_type t)) (transactions this) in
    getUniqueTransactionType this = first_seen types
    /\ NoDup (getUniqueTransactionType this)
    /\ (forall v, In v (getUniqueTransactionType this) <-> In v types)
    /\ (forall t1 t2 t3,
          transactions this = [t1; t2; t3] ->
          transaction_type t1 = JsString "debit" ->
          transaction_type t2 = JsString "credit" ->
          transaction_type t3 = JsString "debit" ->
          getUniqueTransactionType this = [JsString "debit"; JsString "credit"]).
Proof.
  intros this types.
  assert (Heq : getUniqueTransactionType this = first_seen types).
  { unfold getUniqueTransactionType, Array_from.
    transitivity (fold_left Set_add (map transaction_type (transactions this)) []).
    - apply fold_left_through_map.
    - rewrite fold_Set_add. simpl. unfold types. rewrite map_map.
      induction (first_seen _) as [|w ws IH]; simpl; [reflexivity|now rewrite IH]. }
  split; [exact Heq|]. split; [|split].
  - rewrite Heq. apply first_seen_NoDup.
  - intros v. rewrite Heq. apply first_seen_In.
    unfold types. apply Forall_forall. intros w Hw.
    apply list_elem_of_In, in_map_iff in Hw. destruct Hw as (t & <- & _).
    apply stored_value_idem.
  - intros t1 t2 t3 Hts H1 H2 H3. rewrite Heq. unfold types.
    rewrite Hts. simpl. rewrite H1, H2, H3. reflexivity.
Qed.
(** ** Total by date *)

Section ByDate.
Context `{Host}.

Lemma acceptable_not_rejected (lo hi : Z) (v : JsValue) :
  acceptable lo hi v = true ->
  js_lt (ToNumber v) (number_of_Z lo) = false /\ js_gt (ToNumber v) (number_of_Z hi) = false.
Proof.
  unfold acceptable. intros Hok. apply orb_true_iff in Hok. destruct Hok as [Hnan|Hin].
  - destruct (ToNumber v); try discriminate. split; [reflexivity|apply js_gt_NaN_l].
  - unfold in_range in Hin. apply andb_true_iff in Hin. destruct Hin as [Hlo Hhi].
    split; [now apply js_lt_le_false|now apply js_gt_le_false].
Qed.

Lemma not_acceptable_rejected (lo hi : Z) (v : JsValue) :
  is_NaN (number_of_Z lo) = false -> is_NaN (number_of_Z hi) = false ->
  acceptable lo hi v = false ->
  js_lt (ToNumber v) (number_of_Z lo) || js_gt (ToNumber v) (number_of_Z hi) = true.
Proof.
  unfold acceptable. intros Hlo Hhi Hout.
  apply orb_false_iff in Hout. destruct Hout as [Hnan Hout].
  unfold in_range in Hout. apply andb_false_iff in Hout.
  apply orb_true_iff. destruct Hout as [Hout|Hout].
  - left. now apply js_le_false_lt.
  - right. now apply js_le_false_gt.
Qed.

(** The validation rejects a call exactly when its month or its day is not
    acceptable. *)
Lemma date_rejected_acceptable (month day : JsValue) :
  date_rejected month day = negb (acceptable 1 12 month && acceptable 1 31 day).
Proof.
  unfold date_rejected.
  destruct (acceptable 1 12 month) eqn:Hm.
  - destruct (acceptable_not_rejected _ _ _ Hm) as [-> ->].
    destruct (acceptable 1 31 day) eqn:Hd.
    + destruct (acceptable_not_rejected _ _ _ Hd) as [-> ->]. reflexivity.
    + apply not_acceptable_rejected in Hd; [|reflexivity|reflexivity].
      simpl. exact Hd.
  - apply not_acceptable_rejected in Hm; [|reflexivity|reflexivity].
    rewrite Hm. reflexivity.
Qed.

Lemma acceptable_truthy_number (lo hi : Z) (n : number) :
  ToBoolean (JsNumber n) = true -> acceptable lo hi (JsNumber n) = in_range lo hi n.
Proof. unfold acceptable. simpl. destruct n; simpl; try discriminate; reflexivity. Qed.

Lemma calculateTotalAmountByDate_passed (this : TransactionAnalyzer) (year month day : JsValue) :
  date_rejected month day = false ->
  calculateTotalAmountByDate this year month day
  = (sum_amounts (List.filter (agrees_with_query year month day) (transactions this)), []).
Proof.
  intros Hok. unfold calculateTotalAmountByDate. rewrite Hok. f_equal.
  exact (fold_left_sum_filter (agrees_with_query year month day) (transactions this) _).
Qed.

End ByDate.

(** C1 (as amended). The components of [calculateTotalAmountByDate(year,
    month, day)] are optional: a falsy year, and a month or a day that is
    absent or NaN, is a wildcard.  Whenever month and day are each acceptable
    (NaN as a Number, which an absent argument is, or inside [1,12], resp.
    [1,31]), the call prints nothing and returns the sum of the amounts of the
    records whose date agrees with the components that are not wildcards.  A
    month or day of zero is not acceptable. *)
Theorem calculateTotalAmountByDate_wildcards :
  forall `{Host} (this : TransactionAnalyzer) (year month day : JsValue),
    acceptable 1 12 month = true -> acceptable 1 31 day = true ->
    calculateTotalAmountByDate this year month day
    = (sum_amounts (List.filter (agrees_with_query year month day) (transactions this)), []).
Proof.
  intros Hhost this year month day Hm Hd.
  apply calculateTotalAmountByDate_passed.
  now rewrite date_rejected_acceptable, Hm, Hd.
Qed.

(** C2 (as amended). The bounds check of [calculateTotalAmountByDate] reads
    the month and the day as Numbers, truthy or not.  When one of them is not
    acceptable (a Number outside [1,12], resp. [1,31]: for a truthy Number
    acceptable means inside the interval, and zero is outside), the call
    prints the error and returns [0] whatever the array holds; when both are
    acceptable (absent, NaN or inside the interval) nothing is printed. *)
Theorem calculateTotalAmountByDate_bounds :
  forall `{Host} (this : TransactionAnalyzer) (year month day : JsValue),
    (acceptable 1 12 month && acceptable 1 31 day = false ->
     calculateTotalAmountByDate this year month day = (number_of_Z 0, [date_error]))
    /\ (acceptable 1 12 month && acceptable 1 31 day = true ->
        snd (calculateTotalAmountByDate this year month day) = [])
    /\ (forall lo hi n, ToBoolean (JsNumber n) = true ->
                        acceptable lo hi (JsNumber n) = in_range lo hi n)
    /\ (forall lo hi, acceptable lo hi JsUndefined = true)
    /\ (forall hi s, acceptable 1 hi (JsNumber (S754_zero s)) = false).
Proof.
  intros Hhost this year month day. split; [|split; [|split; [|split]]].
  - intros Hout. unfold calculateTotalAmountByDate.
    now rewrite date_rejected_acceptable, Hout.
  - intros Hok.
    rewrite calculateTotalAmountByDate_passed; [reflexivity|].
    now rewrite date_rejected_acceptable, Hok.
  - apply acceptable_truthy_number.
  - reflexivity.
  - intros hi s. unfold acceptable, in_range. simpl ToNumber.
    destruct s; reflexivity.
Qed.
(** ** The counter object *)

Lemma obj_get_set (obj : CountObject) (k k' : PropertyKey) (v : nat) :
  obj_get (obj_set obj k v) k' = if decide (k = k') then Some v else obj_get obj k'.
Proof.
  destruct k as [n|], k' as [n'|]; simpl; repeat case_decide; try congruence.
  - assert (n = n') as -> by congruence. apply lookup_insert_eq.
  - apply lookup_insert_ne. congruence.
Qed.

Lemma count_month_get (obj : CountObject) (k k' : PropertyKey) :
  obj_get (count_month obj k) k'
  = if decide (k = k') then Some (S (default 0%nat (obj_get obj k))) else obj_get obj k'.
Proof.
  unfold count_month.
  destruct (obj_get obj k) as [[|c]|] eqn:Hk; simpl;
    rewrite ?obj_get_set, ?Hk; repeat case_decide; try congruence;
    rewrite ?obj_get_set; repeat case_decide; congruence.
Qed.

Section Buckets.
Context `{Host}.

(** After the counting loop a bucket holds the number of its records, and a
    month without record has no property. *)
Lemma count_loop_get (p : Transaction -> bool) (ts : list Transaction)
      (obj : CountObject) (k : PropertyKey) :
  obj_get (fold_left (fun obj t => if p t then count_month obj (month_key t) else obj) ts obj) k
  = match bucket_count (List.filter p ts) k with
    | O => obj_get obj k
    | S n => Some (S n + default 0%nat (obj_get obj k))%nat
    end.
Proof.
  revert obj. induction ts as [|t ts IH]; intros obj; simpl; [reflexivity|].
  rewrite IH. destruct (p t); [|reflexivity].
  unfold bucket_count. simpl. rewrite count_month_get.
  destruct (decide (month_key t = k)) as [Heq|Hne].
  - rewrite (bool_decide_eq_true_2 _ Heq). simpl. subst k.
    destruct (length _); simpl; f_equal; lia.
  - rewrite (bool_decide_eq_false_2 _ Hne). reflexivity.
Qed.

Lemma transactionCountByMonth_get (this : TransactionAnalyzer) (k : PropertyKey) :
  obj_get (transactionCountByMonth this) k
  = match bucket_count (transactions this) k with O => None | S n => Some (S n) end.
Proof.
  unfold transactionCountByMonth.
  pose proof (count_loop_get (fun _ => true) (transactions this) empty_object k) as Hc.
  simpl in Hc. unfold month_key in Hc.
  replace (List.filter (fun _ => true) (transactions this)) with (transactions this) in Hc.
  - rewrite Hc. destruct (bucket_count _ _); simpl; [destruct k; reflexivity|].
    destruct k; simpl; rewrite ?lookup_empty; simpl; f_equal; lia.
  - clear Hc. induction (transactions this) as [|t ts IH]; simpl; congruence.
Qed.

Lemma debitTransactionCountByMonth_get (this : TransactionAnalyzer) (k : PropertyKey) :
  obj_get (debitTransactionCountByMonth this) k
  = match bucket_count (List.filter is_debit (transactions this)) k with
    | O => None
    | S n => Some (S n)
    end.
Proof.
  unfold debitTransactionCountByMonth.
  pose proof (count_loop_get is_debit (transactions this) empty_object k) as Hc.
  unfold month_key, is_debit in *. rewrite Hc.
  destruct (bucket_count _ _); simpl; [destruct k; reflexivity|].
  destruct k; simpl; rewrite ?lookup_empty; simpl; f_equal; lia.
Qed.

End Buckets.

(** The keys [for ... in] visits are the properties of the object. *)
Lemma OwnPropertyKeys_In (obj : CountObject) (k : PropertyKey) :
  In k (OwnPropertyKeys obj) <-> is_Some (obj_get obj k).
Proof.
  unfold OwnPropertyKeys. rewrite in_app_iff, in_map_iff. split.
  - intros [(n & <- & Hn)|Hk].
    + apply list_elem_of_In in Hn. rewrite merge_sort_Permutation in Hn.
      apply elem_of_elements, elem_of_dom in Hn. exact Hn.
    + destruct (named_NaN obj) eqn:E; simpl in Hk; [|tauto].
      destruct Hk as [<-|[]]. simpl. rewrite E. eauto.
  - destruct k as [n|]; simpl; intros Hs.
    + left. exists n. split; [reflexivity|].
      apply list_elem_of_In. rewrite merge_sort_Permutation.
      apply elem_of_elements, elem_of_dom. exact Hs.
    + right. destruct Hs as [c ->]. now left.
Qed.

(** Integer keys come in ascending order. *)
Lemma OwnPropertyKeys_ascending (obj : CountObject) (ks1 ks2 : list PropertyKey) (m m' : nat) :
  OwnPropertyKeys obj = ks1 ++ KIndex m :: ks2 -> In (KIndex m') ks2 -> (m <= m')%nat.
Proof.
  unfold OwnPropertyKeys. intros Heq Hin.
  pose proof (StronglySorted_merge_sort le (elements (dom (indexed obj)))) as Hsorted.
  set (sorted := merge_sort le (elements (dom (indexed obj)))) in *.
  assert (Hsplit : exists s1 s2, sorted = s1 ++ m :: s2 /\ In m' s2).
  { clear Hsorted. revert ks1 Heq. induction sorted as [|x s IH]; intros ks1 Heq; simpl in Heq.
    - destruct (named_NaN obj); destruct ks1 as [|? [|? ?]]; simpl in Heq; congruence.
    - destruct ks1 as [|k1 ks1]; simpl in Heq.
      + injection Heq as -> <-. exists [], s. split; [reflexivity|].
        apply in_app_iff in Hin. destruct Hin as [Hin|Hin].
        * apply in_map_iff in Hin. destruct Hin as (n & [= ->] & Hn). exact Hn.
        * destruct (named_NaN obj); simpl in Hin; [destruct Hin as [|[]]; congruence|tauto].
      + injection Heq as <- Heq. destruct (IH ks1 Heq) as (s1 & s2 & -> & Hs2).
        exists (x :: s1), s2. split; [reflexivity|exact Hs2]. }
  destruct Hsplit as (s1 & s2 & Hs & Hm'). rewrite Hs in Hsorted.
  apply StronglySorted_app_1_r, StronglySorted_inv in Hsorted.
  destruct Hsorted as [_ Hall].
  rewrite Forall_forall in Hall. apply Hall, list_elem_of_In, Hm'.
Qed.

(** The selection loop over any list of keys, from any state: the count kept
    bounds every count met, and when the month kept has changed it is the first
    key of the list holding that count. *)
Lemma select_loop (obj : CountObject) (ks : list PropertyKey)
      (best : option PropertyKey) (mx : nat) :
  let count k := default 0%nat (obj_get obj k) in
  let result :=
    fold_left (fun '(mostTransactionsMonth, maxTransactionCount) month =>
                 match obj_get obj month with
                 | Some c =>
                   if (maxTransactionCount <? c)%nat then (Some month, c)
                   else (mostTransactionsMonth, maxTransactionCount)
                 | None => (mostTransactionsMonth, maxTransactionCount)
                 end) ks (best, mx) in
  (forall k, In k ks -> count k <= snd result)%nat
  /\ (mx <= snd result)%nat
  /\ (result = (best, mx)
      \/ exists ks1 k ks2,
           ks = ks1 ++ k :: ks2 /\ result = (Some k, count k) /\ (mx < count k)%nat
           /\ forall k', In k' ks1 -> (count k' < count k)%nat).
Proof.
  intros count. revert best mx. induction ks as [|x ks IH]; intros best mx; simpl.
  - split; [tauto|]. split; [lia|now left].
  - set (state := match obj_get obj x with
                  | Some c => if (mx <? c)%nat then (Some x, c) else (best, mx)
                  | None => (best, mx)
                  end).
    assert (Hstate : (state = (Some x, count x) /\ (mx < count x)%nat)
                     \/ (state = (best, mx) /\ (count x <= mx)%nat)).
    { unfold state, count. destruct (obj_get obj x) as [c|]; simpl; [|right; split; [reflexivity|lia]].
      destruct (Nat.ltb_spec mx c); [left|right]; split; auto; lia. }
    clearbody state. destruct Hstate as [[-> Hlt]|[-> Hle]].
    + destruct (IH (Some x) (count x)) as (Hall & Hmx & Hsel). split; [|split].
      * intros k [<-|Hk]; [exact Hmx|apply Hall, Hk].
      * lia.
      * right. destruct Hsel as [Hsel|(ks1 & k & ks2 & -> & Hres & Hk & Hks1)].
        -- exists [], x, ks. repeat split; auto. intros k' [].
        -- exists (x :: ks1), k, ks2. repeat split; auto; [lia|].
           intros k' [<-|Hk']; [exact Hk|apply Hks1, Hk'].
    + destruct (IH best mx) as (Hall & Hmx & Hsel). split; [|split].
      * intros k [<-|Hk]; [lia|apply Hall, Hk].
      * exact Hmx.
      * destruct Hsel as [Hsel|(ks1 & k & ks2 & -> & Hres & Hk & Hks1)]; [now left|right].
        exists (x :: ks1), k, ks2. repeat split; auto.
        intros k' [<-|Hk']; [lia|apply Hks1, Hk'].
Qed.
(** ** The month with most transactions *)

Lemma month_number_succ (m : nat) :
  (m < 12)%nat -> js_add (number_of_nat m) (number_of_Z 1) = number_of_nat (m + 1).
Proof.
  intros Hm. do 12 (destruct m as [|m]; [vm_compute; reflexivity|]). lia.
Qed.

Lemma select_month_empty : select_month empty_object = (None, 0%nat).
Proof. reflexivity. Qed.

Section MostTransactions.
Context `{Host}.

Lemma bucket_count_pos (ts : list Transaction) (k : PropertyKey) :
  (0 < bucket_count ts k)%nat -> exists t, In t ts /\ month_key t = k.
Proof.
  unfold bucket_count. intros Hpos.
  destruct (List.filter _ ts) as [|t l] eqn:E; simpl in Hpos; [lia|].
  assert (Hin : In t (List.filter (fun t => bool_decide (month_key t = k)) ts))
    by (rewrite E; now left).
  apply filter_In in Hin. destruct Hin as [Hin Hk].
  exists t. split; [exact Hin|]. now apply bool_decide_eq_true_1 in Hk.
Qed.

Lemma bucket_count_head (t : Transaction) (ts : list Transaction) :
  (0 < bucket_count (t :: ts) (month_key t))%nat.
Proof.
  unfold bucket_count. simpl. rewrite bool_decide_eq_true_2 by reflexivity. simpl. lia.
Qed.

Lemma transactionCountByMonth_count (this : TransactionAnalyzer) (k : PropertyKey) :
  default 0%nat (obj_get (transactionCountByMonth this) k) = bucket_count (transactions this) k.
Proof. rewrite transactionCountByMonth_get. now destruct (bucket_count _ _). Qed.

Lemma transactionCountByMonth_keys (this : TransactionAnalyzer) (k : PropertyKey) :
  In k (OwnPropertyKeys (transactionCountByMonth this))
  <-> (0 < bucket_count (transactions this) k)%nat.
Proof.
  rewrite OwnPropertyKeys_In, transactionCountByMonth_get.
  destruct (bucket_count _ _); split; intros Hk; try lia; eauto.
  destruct Hk as [? Hk]. discriminate.
Qed.

Lemma debit_loop_no_debit (ts : list Transaction) (obj : CountObject) :
  (forall t, In t ts -> is_debit t = false) ->
  fold_left (fun obj transaction =>
               if IsStrictlyEqual (transaction_type transaction) (JsString "debit")
               then
                 let month := ToPropertyKey_getMonth (newDate (transaction_date transaction)) in
                 count_month obj month
               else obj) ts obj = obj.
Proof.
  induction ts as [|t ts IH]; intros Hno; simpl; [reflexivity|].
  pose proof (Hno t (or_introl eq_refl)) as Ht. unfold is_debit in Ht. rewrite Ht.
  apply IH. intros t' Ht'. apply Hno. now right.
Qed.

End MostTransactions.

(** C4. On every non-empty array [findMostTransactionsMonth()] returns
    [parseInt(k) + 1] for a bucket [k] holding the greatest number of records.
    In the scan of the buckets, which visits the months in ascending order,
    every bucket met before [k] holds strictly fewer records, since only a
    strictly greater count replaces the month kept; hence among the months
    tied for the greatest count the first one met is returned, which is the
    lowest.  When the host can read the date of every record, [k] is a month
    [m] counted from 0 and the result is [m + 1], between 1 and 12. *)
Theorem findMostTransactionsMonth_first_maximal :
  forall `{Host} (this : TransactionAnalyzer),
    transactions this <> [] ->
    let count k := bucket_count (transactions this) k in
    exists k : PropertyKey,
      fst (select_month (transactionCountByMonth this)) = Some k
      /\ findMostTransactionsMonth this = js_add (parseInt (Some k)) (number_of_Z 1)
      /\ (0 < count k)%nat
      /\ (forall k', count k' <= count k)%nat
      /\ (exists before after,
            OwnPropertyKeys (transactionCountByMonth this) = before ++ k :: after
            /\ forall k', In k' before -> (count k' < count k)%nat)
      /\ (forall m m', k = KIndex m -> count (KIndex m') = count k -> (m <= m')%nat)
      /\ (valid_dates (transactions this) ->
          exists m, k = KIndex m /\ (m < 12)%nat
                    /\ findMostTransactionsMonth this = number_of_nat (m + 1)).
Proof.
  intros Hhost this Hne count.
  set (obj := transactionCountByMonth this).
  destruct (select_loop obj (OwnPropertyKeys obj) None 0) as (Hall & _ & Hsel).
  fold (select_month obj) in Hall, Hsel.
  assert (Hcount : forall k, default 0%nat (obj_get obj k) = count k)
    by (intros k; apply transactionCountByMonth_count).
  destruct Hsel as [Hsel|(before & k & after & Hkeys & Hsel & Hpos & Hbefore)].
  - (* the first record has a bucket, so the loop cannot end where it began *)
    exfalso. destruct (transactions this) as [|t ts] eqn:Ets; [congruence|].
    pose proof (bucket_count_head t ts) as Hhead. rewrite <- Ets in Hhead.
    pose proof (Hall (month_key t)) as Hle.
    rewrite Hsel, Hcount in Hle. simpl in Hle.
    specialize (Hle (proj2 (transactionCountByMonth_keys this _) Hhead)).
    rewrite Ets in Hhead. unfold count in Hle. lia.
  - rewrite Hcount in Hpos. rewrite Hsel in Hall. simpl in Hall.
    assert (Hresult : findMostTransactionsMonth this
                      = js_add (parseInt (Some k)) (number_of_Z 1)).
    { unfold findMostTransactionsMonth. fold obj. now rewrite Hsel. }
    exists k. split; [now rewrite Hsel|]. split; [exact Hresult|].
    split; [exact Hpos|]. split; [|split; [|split]].
    + intros k'. destruct (count k') as [|n] eqn:Ek; [lia|]. rewrite <- Ek.
      rewrite <- !Hcount. apply Hall.
      apply transactionCountByMonth_keys. fold (count k'). lia.
    + exists before, after. split; [exact Hkeys|].
      intros k' Hin. rewrite <- !Hcount. now apply Hbefore.
    + intros m m' -> Heq.
      assert (Hin : In (KIndex m') (OwnPropertyKeys obj)).
      { apply transactionCountByMonth_keys. fold (count (KIndex m')). lia. }
      rewrite Hkeys in Hin. apply in_app_iff in Hin. destruct Hin as [Hin|[Hin|Hin]].
      * apply Hbefore in Hin. rewrite !Hcount in Hin. lia.
      * injection Hin as ->. lia.
      * eapply OwnPropertyKeys_ascending; eassumption.
    + intros Hvalid.
      destruct (bucket_count_pos _ _ Hpos) as (t & Ht & Hk).
      destruct (Hvalid t Ht) as (f & Hf & Hm).
      exists (month_index f).
      assert (Hkm : k = KIndex (month_index f)).
      { rewrite <- Hk. unfold month_key. now rewrite Hf. }
      split; [exact Hkm|]. split; [exact Hm|].
      rewrite Hresult, Hkm. simpl. now apply month_number_succ.
Qed.

(** C5. On an empty array [findMostTransactionsMonth()], and on an array
    without debit record [findMostDebitTransactionMonth()], leave the selected
    month at [null] and return NaN, which is no month of [1,12]; no other sign
    of the missing data is given. *)
Theorem findMostTransactionsMonth_no_data :
  forall `{Host} (this : TransactionAnalyzer),
    (transactions this = [] ->
     fst (select_month (transactionCountByMonth this)) = None
     /\ findMostTransactionsMonth this = NaN)
    /\ ((forall t, In t (transactions this) -> is_debit t = false) ->
        fst (select_month (debitTransactionCountByMonth this)) = None
        /\ findMostDebitTransactionMonth this = NaN)
    /\ is_NaN NaN = true /\ in_range 1 12 NaN = false.
Proof.
  intros Hhost this. split; [|split; [|split; reflexivity]].
  - intros Hts. unfold findMostTransactionsMonth, transactionCountByMonth.
    rewrite Hts. simpl. rewrite select_month_empty. split; reflexivity.
  - intros Hno. unfold findMostDebitTransactionMonth, debitTransactionCountByMonth.
    rewrite (debit_loop_no_debit _ _ Hno), select_month_empty. split; reflexivity.
Qed.
(** ** Examples on the reference host *)

(** C3. [calculateTotalAmount()] reads the array of the module-level
    [analyzer], not the array of the instance it is called on: with an empty
    [analyzer] (the file could not be read) the total of an instance holding one
    debit of [50] is [0], although the amounts of the instance sum to [50] and
    its debit total is [50]; and with that instance as [analyzer], the total of
    an empty instance is [50]. *)
Theorem calculateTotalAmount_reads_analyzer :
  @calculateTotalAmount reference_host empty_ledger fifty_ledger = number_of_Z 0
  /\ @sum_amounts reference_host (transactions fifty_ledger) = number_of_Z 50
  /\ @calculateTotalDebitAmount reference_host fifty_ledger = number_of_Z 50
  /\ @calculateTotalAmount reference_host fifty_ledger empty_ledger = number_of_Z 50
  /\ number_of_Z 0 <> number_of_Z 50.
Proof. repeat split; try (vm_compute; reflexivity). vm_compute. discriminate. Qed.

(** The split of the total into debit and other amounts is exact on integer
    amounts of bounded sum, as on the three records of [winter_ledger]. *)
Example calculateTotalAmount_split_winter :
  @calculateTotalAmount reference_host winter_ledger winter_ledger
  = js_add (@calculateTotalDebitAmount reference_host winter_ledger)
           (@sum_amounts reference_host
              (List.filter (fun t => negb (is_debit t)) (transactions winter_ledger))).
Proof.
  apply (@calculateTotalAmount_split_integers reference_host
           (fun t => integer_part (parseFloat_ref (transaction_amount t)))).
  split.
  - intros t Ht. simpl in Ht.
    repeat (destruct Ht as [<-|Ht]; [vm_compute; reflexivity|]). destruct Ht.
  - vm_compute. reflexivity.
Qed.

(** Beyond [2 ^ 53] additions round: adding [1] twice to [10 ^ 16] leaves it
    unchanged, while [10 ^ 16 + 2] is a Number of its own, so the total and the
    sum of its two parts differ in the last digit. *)
Remark calculateTotalAmount_split_rounds :
  @calculateTotalAmount reference_host large_ledger large_ledger = number_of_Z (10 ^ 16)
  /\ js_add (@calculateTotalDebitAmount reference_host large_ledger)
            (@sum_amounts reference_host
               (List.filter (fun t => negb (is_debit t)) (transactions large_ledger)))
     = number_of_Z (10 ^ 16 + 2)
  /\ number_of_Z (10 ^ 16) <> number_of_Z (10 ^ 16 + 2).
Proof. repeat split; try (vm_compute; reflexivity). vm_compute. congruence. Qed.

(** Counterexample to C1 as stated: a month of [0] is falsy, so under the
    claim it is a wildcard and the call with year 2019, month 0 and no day sums
    the three records of 2019 to [307]; the method prints the error and
    returns [0]. *)
Lemma calculateTotalAmountByDate_zero_month_no_wildcard :
  wildcard (num 0) = true
  /\ @sum_amounts reference_host
       (List.filter (@agrees_with_query reference_host (num 2019) (num 0) JsUndefined)
                    (transactions winter_ledger))
     = number_of_Z 307
  /\ @calculateTotalAmountByDate reference_host winter_ledger (num 2019) (num 0) JsUndefined
     = (number_of_Z 0, [date_error])
  /\ number_of_Z 0 <> number_of_Z 307.
Proof. repeat split; try (vm_compute; reflexivity). vm_compute. discriminate. Qed.

Lemma calculateTotalAmountByDate_wildcards_witness :
  @acceptable reference_host 1 12 (num 1) = true
  /\ @acceptable reference_host 1 31 JsUndefined = true
  /\ @calculateTotalAmountByDate reference_host winter_ledger (num 0) (num 1) JsUndefined
     = (number_of_Z 300, []).
Proof.
  assert (Hm : @acceptable reference_host 1 12 (num 1) = true) by (vm_compute; reflexivity).
  assert (Hd : @acceptable reference_host 1 31 JsUndefined = true) by reflexivity.
  split; [exact Hm|]. split; [exact Hd|].
  rewrite (@calculateTotalAmountByDate_wildcards reference_host winter_ledger
             (num 0) (num 1) JsUndefined Hm Hd).
  vm_compute. reflexivity.
Defined.

(** Counterexample to C2 as stated: in the call with year 2019, month 0 and
    day 14 the month is falsy and the day is a truthy value of [1,31], so no
    truthy component is out of bounds; the method prints the error and
    returns [0]. *)
Lemma calculateTotalAmountByDate_validates_falsy_month :
  ToBoolean (num 0) = false
  /\ ToBoolean (num 14) = true /\ in_range 1 31 (number_of_Z 14) = true
  /\ @calculateTotalAmountByDate reference_host winter_ledger (num 2019) (num 0) (num 14)
     = (number_of_Z 0, [date_error]).
Proof. repeat split; vm_compute; reflexivity. Qed.

Lemma calculateTotalAmountByDate_bounds_witness :
  (@acceptable reference_host 1 12 (num 13) && @acceptable reference_host 1 31 (num 1) = false
   /\ @calculateTotalAmountByDate reference_host winter_ledger (num 0) (num 13) (num 1)
      = (number_of_Z 0, [date_error]))
  /\ (@acceptable reference_host 1 12 (num 1) && @acceptable reference_host 1 31 (num 14) = true
      /\ snd (@calculateTotalAmountByDate reference_host winter_ledger
                (num 2019) (num 1) (num 14)) = []).
Proof.
  assert (H13 : @acceptable reference_host 1 12 (num 13)
                && @acceptable reference_host 1 31 (num 1) = false)
    by (vm_compute; reflexivity).
  assert (Hok : @acceptable reference_host 1 12 (num 1)
                && @acceptable reference_host 1 31 (num 14) = true)
    by (vm_compute; reflexivity).
  split.
  - split; [exact H13|].
    exact (proj1 (@calculateTotalAmountByDate_bounds reference_host winter_ledger
                    (num 0) (num 13) (num 1)) H13).
  - split; [exact Hok|].
    exact (proj1 (proj2 (@calculateTotalAmountByDate_bounds reference_host winter_ledger
                           (num 2019) (num 1) (num 14))) Hok).
Defined.

Lemma valid_dates_tie_ledger : @valid_dates reference_host (transactions tie_ledger).
Proof.
  intros t Ht. simpl in Ht.
  repeat (destruct Ht as [<-|Ht]; [eexists; split; [vm_compute; reflexivity|simpl; lia]|]).
  destruct Ht.
Defined.

Lemma findMostTransactionsMonth_first_maximal_witness :
  transactions tie_ledger <> []
  /\ @valid_dates reference_host (transactions tie_ledger)
  /\ fst (select_month (@transactionCountByMonth reference_host tie_ledger)) = Some (KIndex 0)
  /\ @findMostTransactionsMonth reference_host tie_ledger = number_of_nat 1
  /\ @bucket_count reference_host (transactions tie_ledger) (KIndex 0) = 2%nat
  /\ @bucket_count reference_host (transactions tie_ledger) (KIndex 2) = 2%nat
  /\ exists k : PropertyKey,
      fst (select_month (@transactionCountByMonth reference_host tie_ledger)) = Some k
      /\ (exists m, k = KIndex m /\ (m < 12)%nat
                    /\ @findMostTransactionsMonth reference_host tie_ledger
                       = number_of_nat (m + 1)).
Proof.
  assert (Hne : transactions tie_ledger <> []) by discriminate.
  split; [exact Hne|]. split; [exact valid_dates_tie_ledger|].
  split; [vm_compute; reflexivity|]. split; [vm_compute; reflexivity|].
  split; [vm_compute; reflexivity|]. split; [vm_compute; reflexivity|].
  destruct (@findMostTransactionsMonth_first_maximal reference_host tie_ledger Hne)
    as (k & Hk & _ & _ & _ & _ & _ & Hvalid).
  exists k. split; [exact Hk|]. exact (Hvalid valid_dates_tie_ledger).
Defined.

Lemma findMostTransactionsMonth_no_data_witness :
  (transactions empty_ledger = []
   /\ fst (select_month (@transactionCountByMonth reference_host empty_ledger)) = None
   /\ @findMostTransactionsMonth reference_host empty_ledger = NaN)
  /\ ((forall t, In t (transactions credit_ledger) -> is_debit t = false)
      /\ fst (select_month (@debitTransactionCountByMonth reference_host credit_ledger)) = None
      /\ @findMostDebitTransactionMonth reference_host credit_ledger = NaN).
Proof.
  assert (Hno : forall t, In t (transactions credit_ledger) -> is_debit t = false).
  { intros t Ht. simpl in Ht.
    repeat (destruct Ht as [<-|Ht]; [reflexivity|]). destruct Ht. }
  split.
  - split; [reflexivity|].
    exact (proj1 (@findMostTransactionsMonth_no_data reference_host empty_ledger) eq_refl).
  - split; [exact Hno|].
    exact (proj1 (proj2 (@findMostTransactionsMonth_no_data reference_host credit_ledger)) Hno).
Defined.

Lemma calculateAverageTransactionAmount_spec_witness :
  @calculateAverageTransactionAmount reference_host empty_ledger = number_of_Z 0
  /\ @calculateAverageTransactionAmount reference_host winter_ledger
     = js_div (@sum_amounts reference_host (transactions winter_ledger)) (number_of_nat 3)
  /\ @calculateAverageTransactionAmount reference_host fifty_ledger = number_of_Z 50.
Proof.
  split; [|split].
  - exact (proj1 (@calculateAverageTransactionAmount_spec reference_host empty_ledger) eq_refl).
  - refine (proj1 (proj2 (@calculateAverageTransactionAmount_spec reference_host winter_ledger)) _).
    discriminate.
  - exact (proj2 (proj2 (@calculateAverageTransactionAmount_spec reference_host fifty_ledger))
             _ eq_refl eq_refl).
Defined.

Lemma getUniqueTransactionType_first_seen_witness :
  getUniqueTransactionType winter_ledger = [JsString "debit"; JsString "credit"].
Proof.
  exact (proj2 (proj2 (proj2 (getUniqueTransactionType_first_seen winter_ledger)))
           _ _ _ eq_refl eq_refl eq_refl eq_refl).
Defined.

Lemma getTransactionsInDateRange_inclusive_witness :
  js_gt (valueOf (newDate_ref (JsString "2019-02-01")))
        (valueOf (newDate_ref (JsString "2019-01-01"))) = true
  /\ @getTransactionsInDateRange reference_host winter_ledger
       (JsString "2019-02-01") (JsString "2019-01-01") = [].
Proof.
  assert (Hgt : js_gt (valueOf (newDate_ref (JsString "2019-02-01")))
                      (valueOf (newDate_ref (JsString "2019-01-01"))) = true)
    by (vm_compute; reflexivity).
  split; [exact Hgt|].
  exact (proj2 (proj2 (proj2
           (@getTransactionsInDateRange_inclusive reference_host winter_ledger
              (JsString "2019-02-01") (JsString "2019-01-01")))) Hgt).
Defined.

Lemma getTransactionsByAmountRange_excludes_NaN_witness :
  @getTransactionsByAmountRange reference_host credit_ledger (num 100) (num 150)
  = [ record "2019-01-14" (num 100) "credit"; record "2019-01-16" (num 150) "credit" ]
  /\ is_NaN (parseFloat_ref (transaction_amount (record "2019-01-15" (JsString "abc") "credit")))
     = true
  /\ is_NaN (parseFloat_ref (transaction_amount (record "2019-01-14" (num 100) "credit")))
     = false.
Proof.
  assert (Hres : @getTransactionsByAmountRange reference_host credit_ledger (num 100) (num 150)
                 = [ record "2019-01-14" (num 100) "credit";
                     record "2019-01-16" (num 150) "credit" ])
    by (vm_compute; reflexivity).
  split; [exact Hres|]. split; [vm_compute; reflexivity|].
  refine (proj1 (@getTransactionsByAmountRange_excludes_NaN reference_host credit_ledger
                   (num 100) (num 150)) (record "2019-01-14" (num 100) "credit") _).
  rewrite Hres. left. reflexivity.
Defined.

(** * Further properties of the class *)

(** ** More on the order of the Numbers *)

Lemma SFcompare_lt_le_trans a b c :
  SFcompare a b = Some Lt -> not_Lt (SFcompare c b) = true -> SFcompare a c = Some Lt.
Proof.
  destruct a as [[]|[]| |[] ma ea], b as [[]|[]| |[] mb eb], c as [[]|[]| |[] mc ec];
    simpl; try congruence; try reflexivity;
    intros; compare_cases; simpl in *; try congruence; try reflexivity; try lia.
Qed.

Lemma js_lt_le_trans a b c : js_lt a b = true -> js_le b c = true -> js_lt a c = true.
Proof.
  unfold js_lt. rewrite js_le_not_Lt. intros Hab Hbc.
  destruct (SFcompare a b) as [[]|] eqn:E; try discriminate.
  now rewrite (SFcompare_lt_le_trans a b c E Hbc).
Qed.

Lemma js_lt_ge_false a b : js_lt a b = true -> js_ge a b = false.
Proof. unfold js_lt, js_ge. destruct (SFcompare a b) as [[]|]; congruence. Qed.

Lemma js_lt_or_ge a b :
  is_NaN a = false -> is_NaN b = false -> js_lt a b = true \/ js_ge a b = true.
Proof.
  intros Ha Hb. unfold js_lt, js_ge.
  destruct (SFcompare a b) as [[]|] eqn:E; auto.
  apply SFcompare_None in E. destruct E; congruence.
Qed.

Lemma js_le_not_NaN a b : js_le a b = true -> is_NaN a = false /\ is_NaN b = false.
Proof.
  unfold js_le. destruct (SFcompare b a) as [[]|] eqn:E; try discriminate; intros _.
  all: destruct a as [[]|[]| |[] ? ?], b as [[]|[]| |[] ? ?]; simpl in *;
    try discriminate; split; reflexivity.
Qed.

Lemma js_lt_not_NaN a b : js_lt a b = true -> is_NaN a = false /\ is_NaN b = false.
Proof.
  unfold js_lt. destruct (SFcompare a b) as [[]|] eqn:E; try discriminate; intros _.
  destruct a as [[]|[]| |[] ? ?], b as [[]|[]| |[] ? ?]; simpl in *;
    try discriminate; split; reflexivity.
Qed.

Lemma js_add_NaN_l a : js_add NaN a = NaN.
Proof. reflexivity. Qed.

Lemma js_add_NaN_r a : js_add a NaN = NaN.
Proof. destruct a as [[]|[]| |[] ? ?]; reflexivity. Qed.

Lemma fold_left_js_add_NaN (l : list number) : fold_left js_add l NaN = NaN.
Proof. induction l as [|x l IH]; simpl; [reflexivity|exact IH]. Qed.

Lemma IsStrictlyEqual_NaN_r (v : JsValue) : IsStrictlyEqual v (JsNumber NaN) = false.
Proof.
  destruct v as [| | |n|]; try reflexivity.
  destruct n as [[]|[]| |[] ? ?]; reflexivity.
Qed.

Lemma IsStrictlyEqual_sym (x y : JsValue) : IsStrictlyEqual x y = IsStrictlyEqual y x.
Proof.
  destruct x as [| |a|a|a], y as [| |b|b|b]; simpl; try reflexivity.
  - now destruct a, b.
  - unfold js_number_equal, SFeqb.
    destruct a as [[]|[]| |[] ma ea], b as [[]|[]| |[] mb eb]; simpl; try reflexivity;
      rewrite (Z.compare_antisym ea eb);
      change (Pos.compare_cont Eq ma mb) with (Pos.compare ma mb);
      change (Pos.compare_cont Eq mb ma) with (Pos.compare mb ma);
      rewrite (Pos.compare_antisym ma mb);
      destruct (ea ?= eb)%Z; simpl; try reflexivity;
      destruct (ma ?= mb)%positive; reflexivity.
  - apply String.eqb_sym.
Qed.

(** ** Filters by type and by merchant *)

Lemma filter_sublist {A} (p : A -> bool) (l : list A) : sublist (List.filter p l) l.
Proof.
  induction l as [|x l IH]; simpl; [constructor|].
  destruct (p x); [apply sublist_skip|apply sublist_cons]; exact IH.
Qed.

Lemma filter_idem {A} (p : A -> bool) (l : list A) :
  List.filter p (List.filter p l) = List.filter p l.
Proof.
  rewrite filter_filter. apply filter_ext'. intros x. now destruct (p x).
Qed.

Lemma filter_comm {A} (p q : A -> bool) (l : list A) :
  List.filter p (List.filter q l) = List.filter q (List.filter p l).
Proof. rewrite !filter_filter. apply filter_ext'. intros x. apply andb_comm. Qed.

(** X1. [getTransactionsByType(type)] returns, in the order of the array,
    exactly the records whose type is strictly equal to [type]; filtering its
    own result again changes nothing; and for NaN the result is empty
    whatever the array holds, because NaN is not strictly equal to itself. *)
Theorem getTransactionsByType_exact :
  forall (this : TransactionAnalyzer) (type : JsValue),
    (forall t, In t (getTransactionsByType this type)
               <-> In t (transactions this)
                   /\ IsStrictlyEqual (transaction_type t) type = true)
    /\ sublist (getTransactionsByType this type) (transactions this)
    /\ getTransactionsByType (constructor (getTransactionsByType this type)) type
       = getTransactionsByType this type
    /\ getTransactionsByType this (JsNumber NaN) = [].
Proof.
  intros this type. unfold getTransactionsByType. split; [|split; [|split]].
  - intros t. apply filter_In.
  - apply filter_sublist.
  - simpl. apply filter_idem.
  - induction (transactions this) as [|t ts IH]; simpl; [reflexivity|].
    now rewrite IsStrictlyEqual_NaN_r.
Qed.

(** X2. Filtering by type and by merchant commute: the records of a merchant
    among those of a type are the records of that type among those of the
    merchant, in the same order. *)
Theorem getTransactionsByType_Merchant_commute :
  forall (this : TransactionAnalyzer) (type merchantName : JsValue),
    getTransactionsByMerchant (constructor (getTransactionsByType this type)) merchantName
    = getTransactionsByType (constructor (getTransactionsByMerchant this merchantName)) type
    /\ (forall t, In t (getTransactionsByMerchant
                          (constructor (getTransactionsByType this type)) merchantName)
                  <-> In t (transactions this)
                      /\ IsStrictlyEqual (transaction_type t) type = true
                      /\ IsStrictlyEqual (merchant_name t) merchantName = true).
Proof.
  intros this type merchantName.
  unfold getTransactionsByMerchant, getTransactionsByType. simpl. split.
  - apply filter_comm.
  - intros t. rewrite !filter_In. tauto.
Qed.

(** ** Totals of a part of the array *)

Section PartialTotals.
Context `{Host}.

Lemma agrees_all_wildcards (t : Transaction) :
  agrees_with_query JsUndefined JsUndefined JsUndefined t = true.
Proof. reflexivity. Qed.

Lemma filter_all_true {A} (p : A -> bool) (l : list A) :
  (forall x, p x = true) -> List.filter p l = l.
Proof.
  intros Hp. induction l as [|x l IH]; simpl; [reflexivity|]. now rewrite Hp, IH.
Qed.

Lemma calculateTotalAmountByDate_no_component (this : TransactionAnalyzer) :
  calculateTotalAmountByDate this JsUndefined JsUndefined JsUndefined
  = (sum_amounts (transactions this), []).
Proof.
  rewrite calculateTotalAmountByDate_passed by reflexivity.
  now rewrite (filter_all_true _ _ agrees_all_wildcards).
Qed.

End PartialTotals.

(** X3. A call of [calculateTotalAmountByDate] without any argument prints
    nothing and returns the sum of all amounts of the array: it is the total
    [calculateTotalAmount()] returns on the module-level analyzer, and
    [calculateAverageTransactionAmount()] of a non-empty array is that sum
    divided by the number of records. *)
Theorem calculateTotalAmountByDate_no_argument :
  forall `{Host} (this : TransactionAnalyzer),
    calculateTotalAmountByDate this JsUndefined JsUndefined JsUndefined
    = (calculateTotalAmount this this, [])
    /\ (transactions this <> [] ->
        calculateAverageTransactionAmount this
        = js_div (fst (calculateTotalAmountByDate this JsUndefined JsUndefined JsUndefined))
                 (number_of_nat (length (transactions this)))).
Proof.
  intros Hhost this. rewrite calculateTotalAmountByDate_no_component. split.
  - now rewrite calculateTotalAmount_sum.
  - intros Hne. unfold calculateAverageTransactionAmount.
    destruct (transactions this) as [|t ts] eqn:E; [congruence|].
    cbn [length fst]. unfold sum_amounts. now rewrite fold_left_sum_all.
Qed.

(** X4. [calculateTotalDebitAmount()] is the total of the debit records alone:
    on the array [getTransactionsByType("debit")] returns, the total without
    date component and the debit total both give the Number that
    [calculateTotalDebitAmount()] gives on the whole array. *)
Theorem calculateTotalDebitAmount_of_debits :
  forall `{Host} (this : TransactionAnalyzer),
    let debits := constructor (getTransactionsByType this (JsString "debit")) in
    fst (calculateTotalAmountByDate debits JsUndefined JsUndefined JsUndefined)
    = calculateTotalDebitAmount this
    /\ calculateTotalDebitAmount debits = calculateTotalDebitAmount this.
Proof.
  intros Hhost this debits.
  rewrite calculateTotalAmountByDate_no_component.
  rewrite !calculateTotalDebitAmount_sum. unfold debits, getTransactionsByType. simpl.
  fold is_debit. change (fun transaction => is_debit transaction) with is_debit.
  rewrite filter_idem. repeat split.
Qed.

(** ** The more frequent type *)

Lemma count_types_lengths (ts : list Transaction) (d c : nat) :
  fold_left (fun '(debitCount, creditCount) transaction =>
               if IsStrictlyEqual (transaction_type transaction) (JsString "debit")
               then (S debitCount, creditCount)
               else if IsStrictlyEqual (transaction_type transaction) (JsString "credit")
                    then (debitCount, S creditCount)
                    else (debitCount, creditCount))
            ts (d, c)
  = ((d + length (getTransactionsByType (constructor ts) (JsString "debit")))%nat,
     (c + length (getTransactionsByType (constructor ts) (JsString "credit")))%nat).
Proof.
  unfold getTransactionsByType. simpl.
  revert d c. induction ts as [|t ts IH]; intros d c; simpl.
  - f_equal; lia.
  - destruct (transaction_type t) as [| |b|n|s]; simpl; rewrite ?IH; try (f_equal; lia).
    destruct (String.eqb s "debit") eqn:Ed.
    + apply String.eqb_eq in Ed. subst s. simpl. rewrite IH. simpl. f_equal; lia.
    + destruct (String.eqb s "credit"); rewrite IH; simpl; f_equal; lia.
Qed.

(** X5. [mostTransactionTypes()] compares the number of debit records with
    the number of credit records, as [getTransactionsByType] finds them: it
    answers debit when the debits are strictly more, credit when the credits
    are strictly more, and equal otherwise, in particular on an empty array;
    records of any other type do not count. *)
Theorem mostTransactionTypes_counts :
  forall (this : TransactionAnalyzer),
    let debits := length (getTransactionsByType this (JsString "debit")) in
    let credits := length (getTransactionsByType this (JsString "credit")) in
    ((credits < debits)%nat <-> mostTransactionTypes this = "debit")
    /\ ((debits < credits)%nat <-> mostTransactionTypes this = "credit")
    /\ (debits = credits <-> mostTransactionTypes this = "equal").
Proof.
  intros this debits credits. unfold mostTransactionTypes, count_types.
  rewrite count_types_lengths. simpl.
  replace (getTransactionsByType (constructor (transactions this)))
    with (getTransactionsByType this) by (now destruct this).
  fold debits credits.
  destruct (Nat.ltb_spec credits debits); [|destruct (Nat.ltb_spec debits credits)];
    repeat split; intros; try lia; try reflexivity; discriminate.
Qed.

(** ** Lookup by identifier *)

Lemma find_first {A} (p : A -> bool) (l : list A) (x : A) :
  List.find p l = Some x ->
  exists before after, l = before ++ x :: after /\ p x = true
                       /\ forall y, In y before -> p y = false.
Proof.
  induction l as [|a l IH]; simpl; [discriminate|].
  destruct (p a) eqn:Ea.
  - intros [= ->]. exists [], l. repeat split; auto. intros y [].
  - intros Hfind. destruct (IH Hfind) as (before & after & -> & Hx & Hbefore).
    exists (a :: before), after. repeat split; auto.
    intros y [<-|Hy]; auto.
Qed.

Lemma find_app {A} (p : A -> bool) (l1 l2 : list A) :
  List.find p (l1 ++ l2)
  = match List.find p l1 with Some x => Some x | None => List.find p l2 end.
Proof.
  induction l1 as [|a l1 IH]; simpl; [reflexivity|]. now destruct (p a).
Qed.

(** X6. [findTransactionById(id)] returns the first record of the array whose
    identifier is strictly equal to [id]: no record before it has that
    identifier.  It returns [undefined] exactly when no record has the
    identifier, and always for NaN. *)
Theorem findTransactionById_first :
  forall (this : TransactionAnalyzer) (id : JsValue),
    (forall t, findTransactionById this id = Some t ->
       exists before after,
         transactions this = before ++ t :: after
         /\ IsStrictlyEqual (transaction_id t) id = true
         /\ forall t', In t' before -> IsStrictlyEqual (transaction_id t') id = false)
    /\ (findTransactionById this id = None
        <-> forall t, In t (transactions this) ->
                      IsStrictlyEqual (transaction_id t) id = false)
    /\ findTransactionById this (JsNumber NaN) = None.
Proof.
  intros this id. unfold findTransactionById. split; [|split].
  - intros t Hfind. exact (find_first _ _ _ Hfind).
  - split.
    + intros Hnone t Ht. exact (find_none _ _ Hnone t Ht).
    + intros Hall. destruct (List.find _ _) as [t|] eqn:E; [|reflexivity].
      apply find_some in E. destruct E as [Hin Hid]. rewrite (Hall t Hin) in Hid. discriminate.
  - induction (transactions this) as [|t ts IH]; simpl; [reflexivity|].
    now rewrite IsStrictlyEqual_NaN_r.
Qed.

(** X7. Lookup after [addTransaction]: a record found before the call is
    still the one found after it, so among records with the same identifier
    the older one wins; an identifier not found before is found afterwards
    exactly when the new record carries it, and the new record is then the
    answer. *)
Theorem findTransactionById_after_add :
  forall (this : TransactionAnalyzer) (r : Transaction) (id : JsValue),
    findTransactionById (addTransaction this r) id
    = match findTransactionById this id with
      | Some t => Some t
      | None => if IsStrictlyEqual (transaction_id r) id then Some r else None
      end.
Proof.
  intros this r id. unfold findTransactionById, addTransaction. simpl.
  rewrite find_app. simpl. reflexivity.
Qed.

(** ** Filters by date and by amount *)

(** X8. [getTransactionsBeforeDate(date)] keeps the records dated strictly
    before the parsed date.  No record is both before [date] and in the range
    from [date] to any end; a record dated up to [end] is before [start] or in
    the range from [start] to [end] as soon as [start] is a valid date; and
    with an invalid [date] nothing is before it. *)
Theorem getTransactionsBeforeDate_complement :
  forall `{Host} (this : TransactionAnalyzer) (startDate endDate : JsValue),
    let date t := valueOf (newDate (transaction_date t)) in
    (forall t, In t (getTransactionsBeforeDate this startDate) ->
               ~ In t (getTransactionsInDateRange this startDate endDate))
    /\ (is_NaN (valueOf (newDate startDate)) = false ->
        forall t, In t (transactions this) ->
                  js_le (date t) (valueOf (newDate endDate)) = true ->
                  In t (getTransactionsBeforeDate this startDate)
                  \/ In t (getTransactionsInDateRange this startDate endDate))
    /\ (is_NaN (valueOf (newDate startDate)) = true ->
        getTransactionsBeforeDate this startDate = []).
Proof.
  intros Hhost this startDate endDate date.
  unfold getTransactionsBeforeDate, getTransactionsInDateRange. cbv zeta.
  split; [|split].
  - intros t Hb Hr. apply filter_In in Hb. apply filter_In in Hr.
    destruct Hb as [_ Hlt]. destruct Hr as [_ Hr].
    apply andb_true_iff in Hr. destruct Hr as [Hge _].
    rewrite (js_lt_ge_false _ _ Hlt) in Hge. discriminate.
  - intros Hstart t Hin Hend. rewrite !filter_In, andb_true_iff.
    destruct (js_le_not_NaN _ _ Hend) as [Hd _].
    destruct (js_lt_or_ge _ _ Hd Hstart); [left|right]; auto.
  - intros Hnan. destruct (valueOf (newDate startDate)) eqn:E; try discriminate.
    induction (transactions this) as [|t ts IH]; simpl; [reflexivity|].
    unfold js_lt. destruct (valueOf (newDate (transaction_date t))) as [[]|[]| |[] ? ?];
      simpl; exact IH.
Qed.

(** X9. The records before a date are before every later date: when
    [earlier <= later] on the parsed dates, the records before [earlier] are
    among the records before [later], in the same order, and filtering the
    latter by [earlier] gives the former. *)
Theorem getTransactionsBeforeDate_monotone :
  forall `{Host} (this : TransactionAnalyzer) (earlier later : JsValue),
    js_le (valueOf (newDate earlier)) (valueOf (newDate later)) = true ->
    getTransactionsBeforeDate (constructor (getTransactionsBeforeDate this later)) earlier
    = getTransactionsBeforeDate this earlier
    /\ sublist (getTransactionsBeforeDate this earlier) (getTransactionsBeforeDate this later).
Proof.
  intros Hhost this earlier later Hle.
  assert (Heq : getTransactionsBeforeDate
                  (constructor (getTransactionsBeforeDate this later)) earlier
                = getTransactionsBeforeDate this earlier).
  { unfold getTransactionsBeforeDate. simpl. rewrite filter_filter.
    apply filter_ext'. intros t.
    destruct (js_lt (valueOf (newDate (transaction_date t))) (valueOf (newDate earlier))) eqn:E.
    - now rewrite (js_lt_le_trans _ _ _ E Hle).
    - apply andb_false_r. }
  split; [exact Heq|]. rewrite <- Heq. apply filter_sublist.
Qed.

(** X10. [getTransactionsInDateRange] never returns a record whose date the
    host cannot read, and returns nothing at all when the start or the end is
    an invalid date. *)
Theorem getTransactionsInDateRange_invalid_dates :
  forall `{Host} (this : TransactionAnalyzer) (startDate endDate : JsValue),
    (forall t, In t (getTransactionsInDateRange this startDate endDate) ->
               newDate (transaction_date t) <> None)
    /\ (newDate startDate = None \/ newDate endDate = None ->
        getTransactionsInDateRange this startDate endDate = []).
Proof.
  intros Hhost this startDate endDate. unfold getTransactionsInDateRange. cbv zeta. split.
  - intros t Ht Hnone. apply filter_In in Ht. destruct Ht as [_ Ht].
    rewrite Hnone in Ht. simpl in Ht. discriminate.
  - intros Hbad. induction (transactions this) as [|t ts IH]; simpl; [reflexivity|].
    replace (js_ge (valueOf (newDate (transaction_date t))) (valueOf (newDate startDate))
             && js_le (valueOf (newDate (transaction_date t))) (valueOf (newDate endDate)))
      with false; [exact IH|].
    symmetry. apply andb_false_iff. destruct Hbad as [-> | ->]; simpl.
    + left. unfold js_ge.
      now destruct (valueOf (newDate (transaction_date t))) as [[]|[]| |[] ? ?].
    + right. reflexivity.
Qed.

(** X11. [getTransactionsByAmountRange(min, max)] returns exactly the records
    with [min <= amount <= max] on the coerced amount, both ends included; the
    result is empty when [min > max], and when a bound is no number. *)
Theorem getTransactionsByAmountRange_inclusive :
  forall `{Host} (this : TransactionAnalyzer) (minAmount maxAmount : JsValue),
    let amount t := parseFloat (transaction_amount t) in
    (forall t, In t (getTransactionsByAmountRange this minAmount maxAmount)
               <-> In t (transactions this)
                   /\ js_le (ToNumber minAmount) (amount t) = true
                   /\ js_le (amount t) (ToNumber maxAmount) = true)
    /\ (js_gt (ToNumber minAmount) (ToNumber maxAmount) = true ->
        getTransactionsByAmountRange this minAmount maxAmount = [])
    /\ (is_NaN (ToNumber minAmount) = true \/ is_NaN (ToNumber maxAmount) = true ->
        getTransactionsByAmountRange this minAmount maxAmount = []).
Proof.
  intros Hhost this minAmount maxAmount amount.
  unfold getTransactionsByAmountRange. cbv zeta. split; [|split].
  - intros t. rewrite filter_In, andb_true_iff, <- js_le_ge. reflexivity.
  - intros Hgt. induction (transactions this) as [|t ts IH]; simpl; [reflexivity|].
    now rewrite (js_interval_empty _ _ _ Hgt).
  - intros Hnan. induction (transactions this) as [|t ts IH]; simpl; [reflexivity|].
    replace (js_ge (parseFloat (transaction_amount t)) (ToNumber minAmount)
             && js_le (parseFloat (transaction_amount t)) (ToNumber maxAmount))
      with false; [exact IH|].
    symmetry. apply andb_false_iff. destruct Hnan as [Hnan|Hnan].
    + left. destruct (ToNumber minAmount); try discriminate. unfold js_ge.
      now destruct (parseFloat (transaction_amount t)) as [[]|[]| |[] ? ?].
    + right. destruct (ToNumber maxAmount); try discriminate. reflexivity.
Qed.

(** ** Amounts that are no number *)

Section Poison.
Context `{Host}.

Lemma sum_amounts_NaN (ts : list Transaction) :
  (exists t, In t ts /\ is_NaN (parseFloat (transaction_amount t)) = true) ->
  sum_amounts ts = NaN.
Proof.
  unfold sum_amounts. generalize (number_of_Z 0).
  induction ts as [|t ts IH]; intros acc (t' & Hin & Hnan); [destruct Hin|].
  simpl. destruct Hin as [<-|Hin].
  - destruct (parseFloat (transaction_amount t)); try discriminate.
    rewrite js_add_NaN_r. apply fold_left_js_add_NaN.
  - apply IH. eauto.
Qed.

End Poison.

(** X12. One amount that does not coerce to a number makes the aggregates
    NaN: the average of the array, the total without date component, and,
    when the record is a debit, the debit total. *)
Theorem NaN_amount_poisons_totals :
  forall `{Host} (this : TransactionAnalyzer) (t : Transaction),
    In t (transactions this) ->
    is_NaN (parseFloat (transaction_amount t)) = true ->
    calculateAverageTransactionAmount this = NaN
    /\ fst (calculateTotalAmountByDate this JsUndefined JsUndefined JsUndefined) = NaN
    /\ (is_debit t = true -> calculateTotalDebitAmount this = NaN).
Proof.
  intros Hhost this t Hin Hnan.
  assert (Hsum : sum_amounts (transactions this) = NaN) by (apply sum_amounts_NaN; eauto).
  split; [|split].
  - unfold calculateAverageTransactionAmount.
    destruct (transactions this) as [|t0 ts] eqn:E; [destruct Hin|].
    cbn [length]. rewrite fold_left_sum_all. unfold sum_amounts in Hsum. rewrite Hsum.
    reflexivity.
  - now rewrite calculateTotalAmountByDate_no_component.
  - intros Hdebit. rewrite calculateTotalDebitAmount_sum. apply sum_amounts_NaN.
    exists t. split; [|exact Hnan]. apply filter_In. now split.
Qed.

(** ** Appending a record *)

Lemma fold_left_snoc {A B} (f : A -> B -> A) (l : list B) (x : B) (a : A) :
  fold_left f (l ++ [x]) a = f (fold_left f l a) x.
Proof. now rewrite fold_left_app. Qed.

(** X13. The unique types after [addTransaction(r)]: when the type of [r],
    as a [Set] stores it, is already among the unique types they are
    unchanged; otherwise that type is appended at their end. *)
Theorem getUniqueTransactionType_after_add :
  forall (this : TransactionAnalyzer) (r : Transaction),
    getUniqueTransactionType (addTransaction this r)
    = if existsb (SameValueZero (stored_value (transaction_type r)))
                 (getUniqueTransactionType this)
      then getUniqueTransactionType this
      else getUniqueTransactionType this ++ [stored_value (transaction_type r)].
Proof.
  intros this r. unfold getUniqueTransactionType, Array_from, addTransaction. simpl.
  rewrite fold_left_snoc, Set_add_stored. reflexivity.
Qed.

(** X14. The aggregates after [addTransaction(r)]: the debit total grows by
    the amount of [r] when [r] is a debit and is unchanged otherwise, and the
    total without date component grows by the amount of [r]. *)
Theorem totals_after_add :
  forall `{Host} (this : TransactionAnalyzer) (r : Transaction),
    calculateTotalDebitAmount (addTransaction this r)
    = (if is_debit r
       then js_add (calculateTotalDebitAmount this) (parseFloat (transaction_amount r))
       else calculateTotalDebitAmount this)
    /\ fst (calculateTotalAmountByDate (addTransaction this r)
              JsUndefined JsUndefined JsUndefined)
       = js_add (fst (calculateTotalAmountByDate this JsUndefined JsUndefined JsUndefined))
                (parseFloat (transaction_amount r)).
Proof.
  intros Hhost this r. split.
  - unfold calculateTotalDebitAmount, addTransaction. simpl.
    rewrite fold_left_snoc. reflexivity.
  - rewrite !calculateTotalAmountByDate_no_component. unfold sum_amounts, addTransaction.
    cbn [transactions fst]. rewrite map_app. cbn [map]. rewrite fold_left_snoc. reflexivity.
Qed.

(** X15. [mapTransactionDescriptions()] is aligned with the array: it has the
    length of [getAllTransactions()], its entry at each index is the
    description of the record at that index, and after appending records with
    [addTransaction] the former entries are followed by the descriptions of
    the new records. *)
Theorem mapTransactionDescriptions_aligned :
  forall (this : TransactionAnalyzer) (rs : list Transaction),
    length (mapTransactionDescriptions this) = length (getAllTransactions this)
    /\ (forall i, nth_error (mapTransactionDescriptions this) i
                  = option_map transaction_description
                               (nth_error (getAllTransactions this) i))
    /\ mapTransactionDescriptions (fold_left addTransaction rs this)
       = mapTransactionDescriptions this ++ map transaction_description rs.
Proof.
  intros this rs. unfold mapTransactionDescriptions. split; [|split].
  - apply length_map.
  - intros i. apply nth_error_map.
  - change (transactions (fold_left addTransaction rs this))
      with (getAllTransactions (fold_left addTransaction rs this)).
    rewrite addTransaction_all. apply map_app.
Qed.

(** ** The month with most debit transactions *)

Lemma fold_left_filter {A B} (p : B -> bool) (f : A -> B -> A) (l : list B) (a : A) :
  fold_left (fun acc x => if p x then f acc x else acc) l a = fold_left f (List.filter p l) a.
Proof.
  revert a. induction l as [|x l IH]; intros a; simpl; [reflexivity|].
  destruct (p x); simpl; apply IH.
Qed.

Section DebitMonth.
Context `{Host}.

Lemma debitTransactionCountByMonth_debits (this : TransactionAnalyzer) :
  debitTransactionCountByMonth this
  = transactionCountByMonth (constructor (getTransactionsByType this (JsString "debit"))).
Proof.
  unfold debitTransactionCountByMonth, transactionCountByMonth, getTransactionsByType. simpl.
  exact (fold_left_filter
           (fun t => IsStrictlyEqual (transaction_type t) (JsString "debit"))
           (fun obj t => count_month obj (ToPropertyKey_getMonth (newDate (transaction_date t))))
           (transactions this) empty_object).
Qed.

Lemma findMostDebitTransactionMonth_debits (this : TransactionAnalyzer) :
  findMostDebitTransactionMonth this
  = findMostTransactionsMonth (constructor (getTransactionsByType this (JsString "debit"))).
Proof.
  unfold findMostDebitTransactionMonth, findMostTransactionsMonth.
  now rewrite debitTransactionCountByMonth_debits.
Qed.

(** The bucket the selection loop keeps on a non-empty array. *)
Lemma select_month_first_maximal (this : TransactionAnalyzer) :
  transactions this <> [] ->
  exists k before after,
    select_month (transactionCountByMonth this) = (Some k, bucket_count (transactions this) k)
    /\ (0 < bucket_count (transactions this) k)%nat
    /\ (forall k', bucket_count (transactions this) k' <= bucket_count (transactions this) k)%nat
    /\ OwnPropertyKeys (transactionCountByMonth this) = before ++ k :: after
    /\ (forall k', In k' before ->
                   (bucket_count (transactions this) k' < bucket_count (transactions this) k)%nat)
    /\ (forall m m', k = KIndex m ->
                     bucket_count (transactions this) (KIndex m')
                     = bucket_count (transactions this) k ->
                     (m <= m')%nat).
Proof.
  intros Hne. set (obj := transactionCountByMonth this).
  destruct (select_loop obj (OwnPropertyKeys obj) None 0) as (Hall & _ & Hsel).
  fold (select_month obj) in Hall, Hsel.
  assert (Hcount : forall k, default 0%nat (obj_get obj k) = bucket_count (transactions this) k)
    by (intros k; apply transactionCountByMonth_count).
  destruct Hsel as [Hsel|(before & k & after & Hkeys & Hsel & Hpos & Hbefore)].
  - exfalso. destruct (transactions this) as [|t ts] eqn:Ets; [congruence|].
    pose proof (bucket_count_head t ts) as Hhead. rewrite <- Ets in Hhead.
    pose proof (Hall (month_key t)) as Hle.
    rewrite Hsel, Hcount in Hle. simpl in Hle.
    specialize (Hle (proj2 (transactionCountByMonth_keys this _) Hhead)).
    rewrite Ets in Hhead. lia.
  - rewrite Hcount in Hpos, Hsel. rewrite Hsel in Hall. simpl in Hall.
    exists k, before, after. split; [exact Hsel|]. split; [exact Hpos|].
    split; [|split; [exact Hkeys|split]].
    + intros k'. destruct (bucket_count (transactions this) k') as [|n] eqn:Ek; [lia|].
      rewrite <- Ek, <- Hcount. apply Hall. apply transactionCountByMonth_keys. lia.
    + intros k' Hin. rewrite <- !Hcount. now apply Hbefore.
    + intros m m' -> Heq.
      assert (Hin : In (KIndex m') (OwnPropertyKeys obj)).
      { apply transactionCountByMonth_keys. lia. }
      rewrite Hkeys in Hin. apply in_app_iff in Hin. destruct Hin as [Hin|[Hin|Hin]].
      * apply Hbefore in Hin. rewrite !Hcount in Hin. lia.
      * injection Hin as ->. lia.
      * eapply OwnPropertyKeys_ascending; eassumption.
Qed.

End DebitMonth.

(** X16. [findMostDebitTransactionMonth()] is [findMostTransactionsMonth()] of
    the debit records alone, as [getTransactionsByType("debit")] returns them;
    so appending a record that is no debit does not change its answer. *)
Theorem findMostDebitTransactionMonth_is_month_of_debits :
  forall `{Host} (this : TransactionAnalyzer) (r : Transaction),
    findMostDebitTransactionMonth this
    = findMostTransactionsMonth (constructor (getTransactionsByType this (JsString "debit")))
    /\ (is_debit r = false ->
        findMostDebitTransactionMonth (addTransaction this r)
        = findMostDebitTransactionMonth this).
Proof.
  intros Hhost this r. split; [apply findMostDebitTransactionMonth_debits|].
  intros Hr. rewrite !findMostDebitTransactionMonth_debits.
  unfold getTransactionsByType, addTransaction. simpl.
  rewrite List.filter_app. simpl. unfold is_debit in Hr. rewrite Hr. now rewrite app_nil_r.
Qed.

(** X17. On an array with at least one debit record
    [findMostDebitTransactionMonth()] returns [parseInt(k) + 1] for a bucket
    [k] holding the greatest number of debit records; the buckets scanned
    before [k], the lower months, hold strictly fewer debits, so ties go to
    the lowest month.  When the dates of the debit records can be read, [k] is
    a month [m] counted from 0 and the result is [m + 1], between 1 and 12;
    the dates of the other records do not matter. *)
Theorem findMostDebitTransactionMonth_first_maximal :
  forall `{Host} (this : TransactionAnalyzer),
    let debits := getTransactionsByType this (JsString "debit") in
    let count k := bucket_count debits k in
    debits <> [] ->
    exists k : PropertyKey,
      fst (select_month (debitTransactionCountByMonth this)) = Some k
      /\ findMostDebitTransactionMonth this = js_add (parseInt (Some k)) (number_of_Z 1)
      /\ (0 < count k)%nat
      /\ (forall k', count k' <= count k)%nat
      /\ (forall m m', k = KIndex m -> count (KIndex m') = count k -> (m <= m')%nat)
      /\ (valid_dates debits ->
          exists m, k = KIndex m /\ (m < 12)%nat
                    /\ findMostDebitTransactionMonth this = number_of_nat (m + 1)).
Proof.
  intros Hhost this debits count Hne.
  destruct (select_month_first_maximal (constructor debits) Hne)
    as (k & before & after & Hsel & Hpos & Hmax & Hkeys & Hbefore & Hlow).
  simpl in Hsel, Hpos, Hmax, Hbefore, Hlow. fold (count k) in Hsel, Hpos.
  assert (Hobj : debitTransactionCountByMonth this = transactionCountByMonth (constructor debits))
    by apply debitTransactionCountByMonth_debits.
  assert (Hresult : findMostDebitTransactionMonth this
                    = js_add (parseInt (Some k)) (number_of_Z 1)).
  { unfold findMostDebitTransactionMonth. now rewrite Hobj, Hsel. }
  exists k. rewrite Hobj, Hsel. split; [reflexivity|]. split; [exact Hresult|].
  split; [exact Hpos|]. split; [exact Hmax|]. split.
  - exact Hlow.
  - intros Hvalid.
    destruct (bucket_count_pos _ _ Hpos) as (t & Ht & Hk).
    destruct (Hvalid t Ht) as (f & Hf & Hm).
    exists (month_index f).
    assert (Hkm : k = KIndex (month_index f)).
    { rewrite <- Hk. unfold month_key. now rewrite Hf. }
    split; [exact Hkm|]. split; [exact Hm|].
    rewrite Hresult, Hkm. simpl. now apply month_number_succ.
Qed.

(** ** Records with unreadable dates in the total by date *)

Lemma IsStrictlyEqual_NaN_l (v : JsValue) : IsStrictlyEqual (JsNumber NaN) v = false.
Proof. rewrite IsStrictlyEqual_sym. apply IsStrictlyEqual_NaN_r. Qed.

(** X18. As soon as one component of the query is not a wildcard,
    [calculateTotalAmountByDate] ignores the records whose date the host
    cannot read: the call gives the same Number and the same output as on the
    array without them. *)
Theorem calculateTotalAmountByDate_skips_invalid_dates :
  forall `{Host} (this : TransactionAnalyzer) (year month day : JsValue),
    wildcard year && wildcard month && wildcard day = false ->
    calculateTotalAmountByDate this year month day
    = calculateTotalAmountByDate
        (constructor (List.filter has_valid_date (transactions this))) year month day.
Proof.
  intros Hhost this year month day Hq.
  destruct (date_rejected month day) eqn:Hrej.
  - unfold calculateTotalAmountByDate. now rewrite Hrej.
  - rewrite !calculateTotalAmountByDate_passed by exact Hrej. simpl.
    rewrite filter_filter. do 2 f_equal. apply filter_ext'. intros t.
    unfold has_valid_date, agrees_with_query.
    destruct (newDate (transaction_date t)) as [f|]; [reflexivity|].
    cbv zeta. change (getFullYear None) with NaN. change (getMonth None) with NaN.
    change (getDate None) with NaN.
    rewrite !IsStrictlyEqual_NaN_l, !orb_false_r.
    change (js_number_equal NaN (js_sub (ToNumber month) (number_of_Z 1))) with false.
    rewrite ?orb_false_r. exact Hq.
Qed.

(** ** Totals of integer amounts *)

Lemma sum_Z_filter_Permutation (amount_of : Transaction -> Z) (p : Transaction -> bool)
      (ts ts' : list Transaction) :
  Permutation ts ts' ->
  sum_Z amount_of (List.filter p ts) = sum_Z amount_of (List.filter p ts').
Proof.
  unfold sum_Z. induction 1 as [|x l l' _ IH|x y l|l l' l'' _ IH1 _ IH2]; simpl.
  - reflexivity.
  - destruct (p x); simpl; lia.
  - destruct (p x), (p y); simpl; lia.
  - lia.
Qed.

Lemma sum_abs_Permutation (amount_of : Transaction -> Z) (ts ts' : list Transaction) :
  Permutation ts ts' -> sum_abs amount_of ts = sum_abs amount_of ts'.
Proof.
  unfold sum_abs. induction 1 as [|x l l' _ IH|x y l|l l' l'' _ IH1 _ IH2]; simpl; lia.
Qed.

Lemma integer_amounts_Permutation `{Host} (amount_of : Transaction -> Z)
      (ts ts' : list Transaction) :
  Permutation ts ts' -> integer_amounts amount_of ts -> integer_amounts amount_of ts'.
Proof.
  intros Hp [Hall Hsum]. split.
  - intros t Ht. apply Hall. eapply Permutation_in; [symmetry; exact Hp|exact Ht].
  - now rewrite <- (sum_abs_Permutation amount_of ts ts' Hp).
Qed.

(** X19. On integer amounts whose magnitudes add up below [2 ^ 53] no
    addition rounds: the total without date component is the Number of the
    integer sum of the amounts, the debit total the Number of the integer sum
    over the debit records, and neither depends on the order of the records:
    every rearrangement of the array gives the same two totals. *)
Theorem totals_of_integer_amounts :
  forall `{Host} (amount_of : Transaction -> Z) (this : TransactionAnalyzer)
         (ts' : list Transaction),
    integer_amounts amount_of (transactions this) ->
    let total a := fst (calculateTotalAmountByDate a JsUndefined JsUndefined JsUndefined) in
    total this = number_of_Z (sum_Z amount_of (transactions this))
    /\ calculateTotalDebitAmount this
       = number_of_Z (sum_Z amount_of (List.filter is_debit (transactions this)))
    /\ (Permutation (transactions this) ts' ->
        total (constructor ts') = total this
        /\ calculateTotalDebitAmount (constructor ts') = calculateTotalDebitAmount this).
Proof.
  intros Hhost amount_of this ts' Hint total. unfold total.
  rewrite !calculateTotalAmountByDate_no_component, !calculateTotalDebitAmount_sum.
  cbn [fst transactions constructor].
  rewrite (sum_amounts_integers amount_of _ Hint).
  rewrite (sum_amounts_integers amount_of _ (integer_amounts_filter amount_of is_debit _ Hint)).
  split; [reflexivity|]. split; [reflexivity|].
  intros Hp. pose proof (integer_amounts_Permutation amount_of _ _ Hp Hint) as Hint'.
  rewrite (sum_amounts_integers amount_of _ Hint').
  rewrite (sum_amounts_integers amount_of _ (integer_amounts_filter amount_of is_debit _ Hint')).
  split; f_equal; symmetry.
  - rewrite <- (filter_all_true (fun _ => true) (transactions this)) by reflexivity.
    rewrite <- (filter_all_true (fun _ => true) ts') by reflexivity.
    now apply sum_Z_filter_Permutation.
  - now apply sum_Z_filter_Permutation.
Qed.

(** ** The month of most transactions, determined *)

Lemma number_of_month_inj (m m' : nat) :
  (m < 12)%nat -> (m' < 12)%nat ->
  number_of_nat (m + 1) = number_of_nat (m' + 1) -> m = m'.
Proof.
  intros Hm Hm'.
  do 12 (destruct m as [|m];
         [do 12 (destruct m' as [|m'];
                 [vm_compute; intros E; first [reflexivity|discriminate E]|]); lia|]).
  lia.
Qed.

Lemma number_of_month_not_NaN (m : nat) : (m < 12)%nat -> number_of_nat (m + 1) <> NaN.
Proof.
  intros Hm. do 12 (destruct m as [|m]; [vm_compute; discriminate|]). lia.
Qed.

Section MonthDetermined.
Context `{Host}.

Lemma bucket_count_snoc (ts : list Transaction) (r : Transaction) (k : PropertyKey) :
  bucket_count (ts ++ [r]) k
  = (bucket_count ts k + if bool_decide (month_key r = k) then 1 else 0)%nat.
Proof.
  unfold bucket_count. rewrite List.filter_app, length_app. simpl.
  now destruct (bool_decide _).
Qed.

Lemma valid_dates_key (ts : list Transaction) (k : PropertyKey) :
  valid_dates ts -> (0 < bucket_count ts k)%nat -> exists m, k = KIndex m /\ (m < 12)%nat.
Proof.
  intros Hv Hpos. destruct (bucket_count_pos _ _ Hpos) as (t & Ht & Hk).
  destruct (Hv t Ht) as (f & Hf & Hm). exists (month_index f).
  split; [|exact Hm]. rewrite <- Hk. unfold month_key. now rewrite Hf.
Qed.

(** With readable dates the answer is the lowest month of greatest count. *)
Lemma findMostTransactionsMonth_valid (this : TransactionAnalyzer) :
  transactions this <> [] -> valid_dates (transactions this) ->
  exists m, (m < 12)%nat
    /\ findMostTransactionsMonth this = number_of_nat (m + 1)
    /\ (forall m', bucket_count (transactions this) (KIndex m')
                   <= bucket_count (transactions this) (KIndex m))%nat
    /\ (forall m', bucket_count (transactions this) (KIndex m')
                   = bucket_count (transactions this) (KIndex m) -> (m <= m')%nat).
Proof.
  intros Hne Hv.
  destruct (select_month_first_maximal this Hne)
    as (k & before & after & Hsel & Hpos & Hmax & _ & _ & Hlow).
  destruct (valid_dates_key _ _ Hv Hpos) as (m & -> & Hm).
  exists m. split; [exact Hm|]. split.
  - unfold findMostTransactionsMonth. rewrite Hsel. simpl. now apply month_number_succ.
  - split; [intros m'; apply Hmax|intros m' Heq; now apply (Hlow m m')].
Qed.

Lemma findMostTransactionsMonth_lowest_maximal (this : TransactionAnalyzer) (m : nat) :
  transactions this <> [] -> valid_dates (transactions this) ->
  (forall m', bucket_count (transactions this) (KIndex m')
              <= bucket_count (transactions this) (KIndex m))%nat ->
  (forall m', bucket_count (transactions this) (KIndex m')
              = bucket_count (transactions this) (KIndex m) -> (m <= m')%nat) ->
  findMostTransactionsMonth this = number_of_nat (m + 1).
Proof.
  intros Hne Hv Hmax Hlow.
  destruct (findMostTransactionsMonth_valid this Hne Hv) as (m0 & Hm0 & Hres & Hmax0 & Hlow0).
  assert (E : bucket_count (transactions this) (KIndex m0)
              = bucket_count (transactions this) (KIndex m)).
  { pose proof (Hmax m0). pose proof (Hmax0 m). lia. }
  pose proof (Hlow _ E). pose proof (Hlow0 m (eq_sym E)).
  replace m with m0 by lia. exact Hres.
Qed.

Lemma findMostTransactionsMonth_add (this : TransactionAnalyzer) (r : Transaction)
      (f : DateFields) :
  valid_dates (transactions this) ->
  newDate (transaction_date r) = Some f -> (month_index f < 12)%nat ->
  (findMostTransactionsMonth (addTransaction this r) = findMostTransactionsMonth this
   \/ findMostTransactionsMonth (addTransaction this r) = number_of_nat (month_index f + 1))
  /\ (findMostTransactionsMonth this = number_of_nat (month_index f + 1) ->
      findMostTransactionsMonth (addTransaction this r) = number_of_nat (month_index f + 1)).
Proof.
  intros Hv Hf Hm. set (mf := month_index f) in *.
  set (count := bucket_count (transactions this)).
  set (count' := bucket_count (transactions (addTransaction this r))).
  assert (Hkey : month_key r = KIndex mf) by (unfold month_key; now rewrite Hf).
  assert (Hsame : count' (KIndex mf) = (count (KIndex mf) + 1)%nat).
  { unfold count', count, addTransaction. simpl. rewrite bucket_count_snoc, Hkey.
    now rewrite bool_decide_eq_true_2. }
  assert (Hother : forall m', m' <> mf -> count' (KIndex m') = count (KIndex m')).
  { intros m' Hm'. unfold count', count, addTransaction. simpl.
    rewrite bucket_count_snoc, Hkey.
    rewrite bool_decide_eq_false_2 by (intros [= E]; now apply Hm'). lia. }
  assert (Hne' : transactions (addTransaction this r) <> []).
  { unfold addTransaction. simpl. intros E. now apply app_eq_nil in E as [_ E]. }
  assert (Hv' : valid_dates (transactions (addTransaction this r))).
  { intros t Ht. unfold addTransaction in Ht. simpl in Ht.
    apply in_app_iff in Ht. destruct Ht as [Ht|[<-|[]]]; [now apply Hv|].
    exists f. now split. }
  assert (Hempty : transactions this = [] -> forall k, count k = 0%nat).
  { intros E k. unfold count. now rewrite E. }
  split.
  - destruct (findMostTransactionsMonth_valid _ Hne' Hv')
      as (m1 & Hm1 & Hres1 & Hmax1 & Hlow1).
    fold count' in Hmax1, Hlow1.
    destruct (Nat.eq_dec m1 mf) as [->|Hdiff]; [right; exact Hres1|left].
    pose proof (Hmax1 mf) as Hbig. rewrite Hsame, (Hother m1 Hdiff) in Hbig.
    rewrite Hres1. symmetry. apply findMostTransactionsMonth_lowest_maximal.
    + intros E. pose proof (Hempty E (KIndex m1)). lia.
    + exact Hv.
    + intros m'. fold count. pose proof (Hmax1 m') as Hle.
      rewrite (Hother m1 Hdiff) in Hle.
      destruct (Nat.eq_dec m' mf) as [->|Hm']; [lia|]. now rewrite (Hother m' Hm') in Hle.
    + intros m'. fold count. intros Heq.
      destruct (Nat.eq_dec m' mf) as [->|Hm']; [lia|].
      apply Hlow1. now rewrite (Hother m' Hm'), (Hother m1 Hdiff).
  - intros Hres.
    assert (Hne : transactions this <> []).
    { intros E. unfold findMostTransactionsMonth, transactionCountByMonth in Hres.
      rewrite E in Hres. simpl in Hres. symmetry in Hres.
      now apply number_of_month_not_NaN in Hres. }
    destruct (findMostTransactionsMonth_valid _ Hne Hv) as (m0 & Hm0 & Hres0 & Hmax0 & Hlow0).
    fold count in Hmax0, Hlow0.
    assert (m0 = mf) by (apply number_of_month_inj; congruence). subst m0.
    apply findMostTransactionsMonth_lowest_maximal; [exact Hne'|exact Hv'| |].
    + intros m'. fold count'. rewrite Hsame.
      destruct (Nat.eq_dec m' mf) as [->|Hm']; [lia|].
      rewrite (Hother m' Hm'). pose proof (Hmax0 m'). lia.
    + intros m'. fold count'. rewrite Hsame. intros Heq.
      destruct (Nat.eq_dec m' mf) as [->|Hm']; [lia|].
      rewrite (Hother m' Hm') in Heq. pose proof (Hmax0 m'). lia.
Qed.

End MonthDetermined.

(** X20. With readable dates on a non-empty array the answer of
    [findMostTransactionsMonth()] is determined by the counts: it is [m + 1]
    exactly when month [m], counted from 0, holds the greatest number of
    records and no lower month holds as many. *)
Theorem findMostTransactionsMonth_determined :
  forall `{Host} (this : TransactionAnalyzer) (m : nat),
    let count m := bucket_count (transactions this) (KIndex m) in
    transactions this <> [] ->
    valid_dates (transactions this) ->
    (m < 12)%nat ->
    (findMostTransactionsMonth this = number_of_nat (m + 1)
     <-> (forall m', count m' <= count m)%nat
         /\ (forall m', count m' = count m -> (m <= m')%nat)).
Proof.
  intros Hhost this m count Hne Hv Hm. split.
  - intros Hres.
    destruct (findMostTransactionsMonth_valid this Hne Hv) as (m0 & Hm0 & Hres0 & Hmax0 & Hlow0).
    assert (m0 = m) by (apply number_of_month_inj; congruence). subst m0.
    split; assumption.
  - intros [Hmax Hlow]. now apply findMostTransactionsMonth_lowest_maximal.
Qed.

(** X21. With readable dates, [addTransaction(r)] moves the answer of
    [findMostTransactionsMonth()] nowhere but to the month of [r]: the answer
    after the call is the answer before it or the month of [r], and when the
    month of [r] was the answer it still is. *)
Theorem findMostTransactionsMonth_after_add :
  forall `{Host} (this : TransactionAnalyzer) (r : Transaction) (f : DateFields),
    valid_dates (transactions this) ->
    newDate (transaction_date r) = Some f ->
    (month_index f < 12)%nat ->
    (findMostTransactionsMonth (addTransaction this r) = findMostTransactionsMonth this
     \/ findMostTransactionsMonth (addTransaction this r) = number_of_nat (month_index f + 1))
    /\ (findMostTransactionsMonth this = number_of_nat (month_index f + 1) ->
        findMostTransactionsMonth (addTransaction this r)
        = number_of_nat (month_index f + 1)).
Proof. intros Hhost this r f. apply findMostTransactionsMonth_add. Qed.

(** ** The filters after an addition *)

(** X22. Each filter of the class sees [addTransaction(r)] as an addition at
    the end of its result: the result on the array with [r] appended is the
    result on the array before, followed by the result on [r] alone, which is
    [r] or nothing. *)
Theorem filters_after_add :
  forall `{Host} (this : TransactionAnalyzer) (r : Transaction) (a b : JsValue),
    let alone := constructor [r] in
    getTransactionsByType (addTransaction this r) a
    = getTransactionsByType this a ++ getTransactionsByType alone a
    /\ getTransactionsByMerchant (addTransaction this r) a
       = getTransactionsByMerchant this a ++ getTransactionsByMerchant alone a
    /\ getTransactionsBeforeDate (addTransaction this r) a
       = getTransactionsBeforeDate this a ++ getTransactionsBeforeDate alone a
    /\ getTransactionsInDateRange (addTransaction this r) a b
       = getTransactionsInDateRange this a b ++ getTransactionsInDateRange alone a b
    /\ getTransactionsByAmountRange (addTransaction this r) a b
       = getTransactionsByAmountRange this a b ++ getTransactionsByAmountRange alone a b.
Proof.
  intros Hhost this r a b alone.
  unfold getTransactionsByType, getTransactionsByMerchant, getTransactionsBeforeDate,
    getTransactionsInDateRange, getTransactionsByAmountRange, addTransaction, alone.
  cbn [transactions constructor]. cbv zeta.
  repeat split; apply List.filter_app.
Qed.

(** ** The further properties on the example arrays *)

Lemma calculateTotalAmountByDate_no_argument_witness :
  transactions winter_ledger <> []
  /\ @calculateTotalAmountByDate reference_host winter_ledger JsUndefined JsUndefined JsUndefined
     = (number_of_Z 307, [])
  /\ @calculateAverageTransactionAmount reference_host winter_ledger
     = js_div (number_of_Z 307) (number_of_nat 3).
Proof.
  assert (Hne : transactions winter_ledger <> []) by discriminate.
  assert (Htotal : @calculateTotalAmount reference_host winter_ledger winter_ledger
                   = number_of_Z 307) by (vm_compute; reflexivity).
  destruct (@calculateTotalAmountByDate_no_argument reference_host winter_ledger)
    as [Hsum Havg].
  rewrite Htotal in Hsum.
  split; [exact Hne|]. split; [exact Hsum|].
  rewrite (Havg Hne), Hsum. reflexivity.
Defined.

Lemma getTransactionsBeforeDate_complement_witness :
  is_NaN (valueOf (newDate_ref (JsString "2019-01-15"))) = false
  /\ In (record "2019-01-14" (num 100) "debit") (transactions winter_ledger)
  /\ (In (record "2019-01-14" (num 100) "debit")
         (@getTransactionsBeforeDate reference_host winter_ledger (JsString "2019-01-15"))
      \/ In (record "2019-01-14" (num 100) "debit")
            (@getTransactionsInDateRange reference_host winter_ledger
               (JsString "2019-01-15") (JsString "2019-02-01")))
  /\ (is_NaN (valueOf (newDate_ref (JsString "soon"))) = true
      /\ @getTransactionsBeforeDate reference_host winter_ledger (JsString "soon") = []).
Proof.
  assert (Hstart : is_NaN (valueOf (newDate_ref (JsString "2019-01-15"))) = false)
    by (vm_compute; reflexivity).
  assert (Hin : In (record "2019-01-14" (num 100) "debit") (transactions winter_ledger))
    by (left; reflexivity).
  assert (Hbad : is_NaN (valueOf (newDate_ref (JsString "soon"))) = true) by reflexivity.
  split; [exact Hstart|]. split; [exact Hin|]. split.
  - refine (proj1 (proj2 (@getTransactionsBeforeDate_complement reference_host winter_ledger
                            (JsString "2019-01-15") (JsString "2019-02-01"))) Hstart _ Hin _).
    vm_compute. reflexivity.
  - split; [exact Hbad|].
    exact (proj2 (proj2 (@getTransactionsBeforeDate_complement reference_host winter_ledger
                           (JsString "soon") JsUndefined)) Hbad).
Defined.

Lemma getTransactionsBeforeDate_monotone_witness :
  js_le (valueOf (newDate_ref (JsString "2019-01-15")))
        (valueOf (newDate_ref (JsString "2019-02-01"))) = true
  /\ @getTransactionsBeforeDate reference_host
       (constructor (@getTransactionsBeforeDate reference_host winter_ledger
                       (JsString "2019-02-01")))
       (JsString "2019-01-15")
     = @getTransactionsBeforeDate reference_host winter_ledger (JsString "2019-01-15")
  /\ sublist (@getTransactionsBeforeDate reference_host winter_ledger (JsString "2019-01-15"))
             (@getTransactionsBeforeDate reference_host winter_ledger (JsString "2019-02-01")).
Proof.
  assert (Hle : js_le (valueOf (newDate_ref (JsString "2019-01-15")))
                      (valueOf (newDate_ref (JsString "2019-02-01"))) = true)
    by (vm_compute; reflexivity).
  split; [exact Hle|].
  exact (@getTransactionsBeforeDate_monotone reference_host winter_ledger
           (JsString "2019-01-15") (JsString "2019-02-01") Hle).
Defined.

Lemma getTransactionsInDateRange_invalid_dates_witness :
  newDate_ref (JsString "soon") = None
  /\ @getTransactionsInDateRange reference_host winter_ledger
       (JsString "soon") (JsString "2019-02-01") = [].
Proof.
  split; [reflexivity|].
  exact (proj2 (@getTransactionsInDateRange_invalid_dates reference_host winter_ledger
                  (JsString "soon") (JsString "2019-02-01")) (or_introl eq_refl)).
Defined.

Lemma getTransactionsByAmountRange_inclusive_witness :
  js_gt (@ToNumber reference_host (num 200)) (@ToNumber reference_host (num 100)) = true
  /\ @getTransactionsByAmountRange reference_host credit_ledger (num 200) (num 100) = []
  /\ is_NaN (@ToNumber reference_host JsUndefined) = true
  /\ @getTransactionsByAmountRange reference_host credit_ledger JsUndefined (num 100) = [].
Proof.
  assert (Hgt : js_gt (@ToNumber reference_host (num 200)) (@ToNumber reference_host (num 100))
                = true) by (vm_compute; reflexivity).
  assert (Hnan : is_NaN (@ToNumber reference_host JsUndefined) = true) by reflexivity.
  split; [exact Hgt|]. split.
  - exact (proj1 (proj2 (@getTransactionsByAmountRange_inclusive reference_host credit_ledger
                           (num 200) (num 100))) Hgt).
  - split; [exact Hnan|].
    exact (proj2 (proj2 (@getTransactionsByAmountRange_inclusive reference_host credit_ledger
                           JsUndefined (num 100))) (or_introl Hnan)).
Defined.

Lemma NaN_amount_poisons_totals_witness :
  In (record "2019-01-15" (JsString "abc") "credit") (transactions poisoned_ledger)
  /\ is_NaN (parseFloat_ref (transaction_amount (record "2019-01-15" (JsString "abc") "credit")))
     = true
  /\ @calculateAverageTransactionAmount reference_host poisoned_ledger = NaN
  /\ fst (@calculateTotalAmountByDate reference_host poisoned_ledger
            JsUndefined JsUndefined JsUndefined) = NaN.
Proof.
  assert (Hin : In (record "2019-01-15" (JsString "abc") "credit")
                   (transactions poisoned_ledger)) by (right; left; reflexivity).
  assert (Hnan : is_NaN (parseFloat_ref
                           (transaction_amount (record "2019-01-15" (JsString "abc") "credit")))
                 = true) by (vm_compute; reflexivity).
  split; [exact Hin|]. split; [exact Hnan|].
  destruct (@NaN_amount_poisons_totals reference_host poisoned_ledger _ Hin Hnan)
    as (Havg & Htotal & _).
  split; [exact Havg|exact Htotal].
Defined.

Lemma findMostDebitTransactionMonth_is_month_of_debits_witness :
  is_debit (record "2019-02-02" (num 5) "credit") = false
  /\ @findMostDebitTransactionMonth reference_host
       (addTransaction winter_ledger (record "2019-02-02" (num 5) "credit"))
     = @findMostDebitTransactionMonth reference_host winter_ledger.
Proof.
  split; [reflexivity|].
  exact (proj2 (@findMostDebitTransactionMonth_is_month_of_debits reference_host winter_ledger
                  (record "2019-02-02" (num 5) "credit")) eq_refl).
Defined.

Lemma findMostDebitTransactionMonth_first_maximal_witness :
  getTransactionsByType winter_ledger (JsString "debit") <> []
  /\ @findMostDebitTransactionMonth reference_host winter_ledger = number_of_nat 1
  /\ exists k : PropertyKey,
      fst (select_month (@debitTransactionCountByMonth reference_host winter_ledger)) = Some k
      /\ (0 < @bucket_count reference_host
                (getTransactionsByType winter_ledger (JsString "debit")) k)%nat.
Proof.
  assert (Hne : getTransactionsByType winter_ledger (JsString "debit") <> [])
    by (vm_compute; discriminate).
  split; [exact Hne|]. split; [vm_compute; reflexivity|].
  destruct (@findMostDebitTransactionMonth_first_maximal reference_host winter_ledger Hne)
    as (k & Hk & _ & Hpos & _).
  exists k. split; [exact Hk|exact Hpos].
Defined.

Lemma calculateTotalAmountByDate_skips_invalid_dates_witness :
  wildcard (num 2019) && wildcard JsUndefined && wildcard JsUndefined = false
  /\ @calculateTotalAmountByDate reference_host
       (constructor [ record "2019-01-14" (num 100) "debit";
                      record "soon" (num 5) "debit" ])
       (num 2019) JsUndefined JsUndefined
     = (number_of_Z 100, []).
Proof.
  assert (Hq : wildcard (num 2019) && wildcard JsUndefined && wildcard JsUndefined = false)
    by (vm_compute; reflexivity).
  split; [exact Hq|].
  rewrite (@calculateTotalAmountByDate_skips_invalid_dates reference_host _
             (num 2019) JsUndefined JsUndefined Hq).
  vm_compute. reflexivity.
Defined.

Lemma integer_amounts_winter_ledger :
  @integer_amounts reference_host
    (fun t => integer_part (parseFloat_ref (transaction_amount t)))
    (transactions winter_ledger).
Proof.
  split.
  - intros t Ht. simpl in Ht.
    repeat (destruct Ht as [<-|Ht]; [vm_compute; reflexivity|]). destruct Ht.
  - vm_compute. reflexivity.
Defined.

Lemma totals_of_integer_amounts_witness :
  @integer_amounts reference_host
    (fun t => integer_part (parseFloat_ref (transaction_amount t)))
    (transactions winter_ledger)
  /\ fst (@calculateTotalAmountByDate reference_host winter_ledger
            JsUndefined JsUndefined JsUndefined) = number_of_Z 307
  /\ @calculateTotalDebitAmount reference_host winter_ledger = number_of_Z 107
  /\ @calculateTotalDebitAmount reference_host (constructor (rev (transactions winter_ledger)))
     = @calculateTotalDebitAmount reference_host winter_ledger.
Proof.
  split; [exact integer_amounts_winter_ledger|].
  destruct (@totals_of_integer_amounts reference_host _ winter_ledger
              (rev (transactions winter_ledger)) integer_amounts_winter_ledger)
    as (Htotal & Hdebit & Hperm).
  split; [exact Htotal|]. split; [exact Hdebit|].
  exact (proj2 (Hperm (Permutation_rev _))).
Defined.

Lemma findMostTransactionsMonth_determined_witness :
  transactions tie_ledger <> []
  /\ @valid_dates reference_host (transactions tie_ledger)
  /\ @findMostTransactionsMonth reference_host tie_ledger = number_of_nat 1
  /\ (forall m', @bucket_count reference_host (transactions tie_ledger) (KIndex m')
                 <= @bucket_count reference_host (transactions tie_ledger) (KIndex 0))%nat.
Proof.
  assert (Hne : transactions tie_ledger <> []) by discriminate.
  assert (Hres : @findMostTransactionsMonth reference_host tie_ledger = number_of_nat 1)
    by (vm_compute; reflexivity).
  split; [exact Hne|]. split; [exact valid_dates_tie_ledger|]. split; [exact Hres|].
  refine (proj1 (proj1 (@findMostTransactionsMonth_determined reference_host tie_ledger 0%nat
                          Hne valid_dates_tie_ledger _) Hres)).
  lia.
Defined.

Lemma findMostTransactionsMonth_after_add_witness :
  exists f : DateFields,
    newDate_ref (transaction_date (record "2019-03-20" (num 5) "credit")) = Some f
    /\ month_index f = 2%nat
    /\ @findMostTransactionsMonth reference_host tie_ledger = number_of_nat 1
    /\ (@findMostTransactionsMonth reference_host
          (addTransaction tie_ledger (record "2019-03-20" (num 5) "credit"))
        = @findMostTransactionsMonth reference_host tie_ledger
        \/ @findMostTransactionsMonth reference_host
             (addTransaction tie_ledger (record "2019-03-20" (num 5) "credit"))
           = number_of_nat (month_index f + 1)).
Proof.
  eexists. split; [vm_compute; reflexivity|]. split; [reflexivity|].
  split; [vm_compute; reflexivity|].
  refine (proj1 (@findMostTransactionsMonth_after_add reference_host tie_ledger
                   (record "2019-03-20" (num 5) "credit") _ valid_dates_tie_ledger _ _)).
  - vm_compute. reflexivity.
  - simpl. lia.
Defined.
